(** * weather_cli: a shallow embedding of [cli.py] and its specification

    The command resolves a place name with the geocoding service, asks the
    forecast service for current conditions and a daily forecast, and
    prints three blocks of text.  The two HTTP exchanges are the only
    contact with the outside; they appear here as two functions from a
    query to a reply, so that everything else is ordinary computation.

    Conventions of the embedding:
    - a Python [int] is a [Z]; a [str] is a [string] of (UTF-8) bytes;
    - a [dict] with string keys is a [gmap string _];
    - a raised exception is the [Raise] alternative of [result];
    - the decoded bodies of the two services have the shape the services
      document: a list of result objects, an object of scalars for the
      current conditions, an object of arrays of scalars for the days;
    - a stream is the list of the texts printed to it, one entry for each
      call of [print] (an entry may itself span several lines);
    - [main] is modelled from the parsed arguments on. *)

From Stdlib Require Import ZArith Lia List String Ascii Bool.
From stdpp Require Import base option list gmap strings pretty.

Local Open Scope Z_scope.

(** ** Exceptions and results *)

Inductive exn : Type :=
| RuntimeError (msg : string)
| KeyError (key : string)
| IndexError
| TypeError
| ValueError
| OverflowError.

#[global] Instance exn_eq_dec : EqDecision exn.
Proof. solve_decision. Defined.

Inductive result (A : Type) : Type :=
| Ok (a : A)
| Raise (e : exn).
Arguments Ok {A} a.
Arguments Raise {A} e.

#[global] Instance result_eq_dec {A} `{EqDecision A} : EqDecision (result A).
Proof. solve_decision. Defined.

Definition rbind {A B} (m : result A) (k : A -> result B) : result B :=
  match m with
  | Ok a => k a
  | Raise e => Raise e
  end.

Notation "'let*' x ':=' m 'in' k" := (rbind m (fun x => k))
  (at level 10, x name, m at level 100, k at level 200, only parsing).

(** ** Python values met in the decoded JSON

    A float is never computed with: the program renders it ([str]),
    truncates it ([int]) or asks whether it is zero ([bool]).  A float is
    therefore kept as those three observations. *)

Record pyfloat : Type := PyFloat {
  fl_str : string;
  fl_int : result Z;
  fl_true : bool
}.

#[global] Instance pyfloat_eq_dec : EqDecision pyfloat.
Proof. solve_decision. Defined.

Inductive pyval : Type :=
| PNone
| PBool (b : bool)
| PInt (z : Z)
| PFloat (f : pyfloat)
| PStr (s : string).

#[global] Instance pyval_eq_dec : EqDecision pyval.
Proof. solve_decision. Defined.

Definition is_none (v : pyval) : bool :=
  match v with PNone => true | _ => false end.

(** [str(v)], which is also what an f-string field [{v}] renders. *)
Definition py_str (v : pyval) : string :=
  match v with
  | PNone => "None"
  | PBool true => "True"
  | PBool false => "False"
  | PInt z => pretty z
  | PFloat f => fl_str f
  | PStr s => s
  end.

(** Truth value of [v], as tested by [or] and [not]. *)
Definition py_truthy (v : pyval) : bool :=
  match v with
  | PNone => false
  | PBool b => b
  | PInt z => negb (Z.eqb z 0)
  | PFloat f => fl_true f
  | PStr s => negb (String.eqb s "")
  end.

(** [a or b] *)
Definition py_or (a b : pyval) : pyval := if py_truthy a then a else b.

Abbreviation dict := (gmap string pyval).

(** [d.get(k, dflt)] *)
Definition dict_get {V} (d : gmap string V) (k : string) (dflt : V) : V :=
  default dflt (d !! k).

(** [d[k]] *)
Definition dict_item {V} (d : gmap string V) (k : string) : result V :=
  match d !! k with
  | Some v => Ok v
  | None => Raise (KeyError k)
  end.

(** Truth value of an optional dict: [None] and [{}] are false. *)
Definition dict_truthy {V} `{EqDecision V} (d : option (gmap string V)) : bool :=
  match d with
  | None => false
  | Some m => negb (bool_decide (m = ∅))
  end.

(** [len(l)] *)
Definition py_len {A} (l : list A) : Z := Z.of_nat (length l).

(** [l[i]], with Python's negative indices and its [IndexError]. *)
Definition py_getitem {A} (l : list A) (i : Z) : result A :=
  let j := if Z.ltb i 0 then i + py_len l else i in
  if Z.ltb j 0 || Z.leb (py_len l) j then Raise IndexError
  else match l !! Z.to_nat j with
       | Some x => Ok x
       | None => Raise IndexError
       end.

(** [range(n)] *)
Definition py_range (n : Z) : list Z := seqZ 0 n.

Definition newline : string := String "010"%char "".

(** [sep.join(lines)] *)
Fixpoint py_join (sep : string) (lines : list string) : string :=
  match lines with
  | [] => ""
  | [l] => l
  | l :: rest => l +:+ sep +:+ py_join sep rest
  end.

(** ** The weather-code table *)

Definition WMO_ITEMS : list (Z * string) :=
  [ (0, "Clear sky");
    (1, "Mainly clear"); (2, "Partly cloudy"); (3, "Overcast");
    (45, "Fog"); (48, "Depositing rime fog");
    (51, "Light drizzle"); (53, "Moderate drizzle"); (55, "Dense drizzle");
    (56, "Light freezing drizzle"); (57, "Dense freezing drizzle");
    (61, "Slight rain"); (63, "Moderate rain"); (65, "Heavy rain");
    (66, "Light freezing rain"); (67, "Heavy freezing rain");
    (71, "Slight snow"); (73, "Moderate snow"); (75, "Heavy snow");
    (77, "Snow grains");
    (80, "Slight rain showers"); (81, "Moderate rain showers");
    (82, "Violent rain showers");
    (85, "Slight snow showers"); (86, "Heavy snow showers");
    (95, "Thunderstorm"); (96, "Thunderstorm with slight hail");
    (99, "Thunderstorm with heavy hail") ].

Definition WMO_TEXT : gmap Z string := list_to_map WMO_ITEMS.

(** [WMO_TEXT.get(code, f"WMO {code}")] *)
Definition wmo_desc (code : Z) : string :=
  default ("WMO " +:+ pretty code) (WMO_TEXT !! code).

(** ** Unit systems

    [unit] is the text of the [--unit] option.  Every function compares it
    with ["imperial"] and treats any other text as metric. *)

Definition imperial (unit : string) : bool := String.eqb unit "imperial".

(** The locals [temp_unit] and [wind_unit] of [fetch_weather]. *)
Definition temp_unit (unit : string) : string :=
  if imperial unit then "fahrenheit" else "celsius".
Definition wind_unit (unit : string) : string :=
  if imperial unit then "mph" else "kmh".

(** The locals [u_temp] and [u_wind] of the two formatters. *)
Definition u_temp (unit : string) : string :=
  if imperial unit then "°F" else "°C".
Definition u_wind (unit : string) : string :=
  if imperial unit then "mph" else "km/h".

(** ** Timestamps

    [datetime] keeps the fields read by the format ["%Y-%m-%d %H:%M"].
    [strftime] leaves [%Y] to the C library, and glibc writes the year as
    it is, without leading zeros; month, day, hour and minute are
    zero-padded to two digits. *)

Record datetime : Type := DateTime {
  year : Z;
  month : Z;
  day : Z;
  hour : Z;
  minute : Z
}.

Definition valid_datetime (dt : datetime) : Prop :=
  1 <= year dt <= 9999 /\ 1 <= month dt <= 12 /\ 1 <= day dt <= 31 /\
  0 <= hour dt <= 23 /\ 0 <= minute dt <= 59.

Definition digit (d : Z) : ascii := ascii_of_nat (48 + Z.to_nat (d mod 10)).

Definition pad2 (n : Z) : string :=
  String (digit (n / 10)) (String (digit n) "").

Definition pad4 (n : Z) : string :=
  String (digit (n / 1000)) (String (digit (n / 100)) (pad2 n)).

Definition strftime (dt : datetime) : string :=
  pretty (year dt) +:+ "-" +:+ pad2 (month dt) +:+ "-" +:+ pad2 (day dt)
  +:+ " " +:+ pad2 (hour dt) +:+ ":" +:+ pad2 (minute dt).

(** ** Stripping, for the header line *)

(** ASCII white space as removed by [str.strip()].  The other white
    space of Unicode that [str.strip()] removes (U+0085, U+00A0, U+2000
    and the like) is two or three bytes long in UTF-8 and is not
    recognised here: a text with such a character at one of its ends is
    stripped less than Python strips it. *)
Definition is_space (c : ascii) : bool :=
  let n := N_of_ascii c in
  ((9 <=? n) && (n <=? 13) || (28 <=? n) && (n <=? 32))%N.

Definition is_comma (c : ascii) : bool := Ascii.eqb c ","%char.

Fixpoint lstrip (p : ascii -> bool) (s : string) : string :=
  match s with
  | String c rest => if p c then lstrip p rest else s
  | EmptyString => EmptyString
  end.

Fixpoint rstrip (p : ascii -> bool) (s : string) : string :=
  match s with
  | String c rest =>
      match rstrip p rest with
      | EmptyString => if p c then EmptyString else String c EmptyString
      | kept => String c kept
      end
  | EmptyString => EmptyString
  end.

(** [s.strip()] and [s.strip(',')] *)
Definition py_strip (p : ascii -> bool) (s : string) : string :=
  rstrip p (lstrip p s).

(** ** HTTP replies

    What [urllib.request.urlopen] followed by [json.load] can yield.
    [urlopen] hands back a response only for a status from 200 to 299:
    that is [Reply], with the body decoded or the decoder's message.  For
    any other status it raises [HTTPError], whose text is
    "HTTP Error <status>: <reason>"; any other failure of the transport
    is [Failure] with the text of its exception. *)

Inductive http_reply (A : Type) : Type :=
| Reply (status : Z) (body : A + string)
| HTTPError (status : Z) (reason : string)
| Failure (msg : string).
Arguments Reply {A} status body.
Arguments HTTPError {A} status reason.
Arguments Failure {A} msg.

Definition network_error (msg : string) : exn :=
  RuntimeError ("Network/API error: " +:+ msg).

(** [str(e)] for the [HTTPError] of [urlopen]. *)
Definition http_error_text (status : Z) (reason : string) : string :=
  "HTTP Error " +:+ pretty status +:+ ": " +:+ reason.

(** [_get_json], applied to the reply that [urlopen(url)] gave. *)
Definition _get_json {A} (reply : http_reply A) : result A :=
  match reply with
  | Reply status body =>
      if negb (Z.eqb status 200) then
        Raise (network_error ("HTTP " +:+ pretty status))
      else match body with
           | inl data => Ok data
           | inr msg => Raise (network_error msg)
           end
  | HTTPError status reason =>
      Raise (network_error (http_error_text status reason))
  | Failure msg => Raise (network_error msg)
  end.

(** [urllib.parse.urlencode]: every value goes through [str]; the
    percent-escaping of the text is left out. *)
Definition urlencode (params : list (string * pyval)) : list (string * string) :=
  map (fun kv => (fst kv, py_str (snd kv))) params.

(** Decoded bodies of the two services, typed as the services document
    them.  Each entry of the daily block is an array; a block in which a
    sequence is [null] instead of an array is not of this type (there
    [len] would raise [TypeError]). *)
Record geo_data : Type := GeoData {
  results : option (list dict)
}.

Record forecast_data : Type := ForecastData {
  current_weather : option dict;
  daily : option (gmap string (list pyval))
}.

(** ** Output streams *)

Record streams : Type := Streams {
  stdout : list string;
  stderr : list string
}.

Definition io (A : Type) : Type := streams -> result A * streams.

Definition io_ret {A} (a : A) : io A := fun s => (Ok a, s).

Definition io_bind {A B} (m : io A) (k : A -> io B) : io B :=
  fun s =>
    match m s with
    | (Ok a, s') => k a s'
    | (Raise e, s') => (Raise e, s')
    end.

Definition lift {A} (r : result A) : io A := fun s => (r, s).

Definition print (line : string) : io unit :=
  fun s => (Ok tt, {| stdout := stdout s ++ [line]; stderr := stderr s |}).

Definition print_err (line : string) : io unit :=
  fun s => (Ok tt, {| stdout := stdout s; stderr := stderr s ++ [line] |}).

Notation "'let!' x ':=' m 'in' k" := (io_bind m (fun x => k))
  (at level 10, x name, m at level 100, k at level 200, only parsing).

(** ** The program *)

Record args : Type := Args {
  place : string;
  days : Z;
  unit : string;
  lang : string
}.

Section Program.

(** The two services, as functions of the encoded query. *)
Variable urlopen_geocoding : list (string * string) -> http_reply geo_data.
Variable urlopen_forecast : list (string * string) -> http_reply forecast_data.

(** [int(s)] on text ([None] for its [ValueError]) and
    [datetime.fromisoformat] ([None] for any exception it raises). *)
Variable int_of_str : string -> option Z.
Variable fromisoformat : string -> option datetime.

(** [int(v)] *)
Definition py_int (v : pyval) : result Z :=
  match v with
  | PNone => Raise TypeError
  | PBool b => Ok (if b then 1 else 0)
  | PInt z => Ok z
  | PFloat f => fl_int f
  | PStr s =>
      match int_of_str s with
      | Some z => Ok z
      | None => Raise ValueError
      end
  end.

Definition geocode_params (place language : string) : list (string * pyval) :=
  [ ("name", PStr place);
    ("count", PInt 1);
    ("language", PStr language);
    ("format", PStr "json") ].

Definition geocode (place language : string) : result (option dict) :=
  let params := urlencode (geocode_params place language) in
  let* data := _get_json (urlopen_geocoding params) in
  let results :=
    match results data with
    | Some (r :: rest) => r :: rest
    | _ => []
    end in
  match results with
  | [] => Ok None
  | r :: _ =>
      let name := dict_get r "name" PNone in
      let country := dict_get r "country" PNone in
      let* lat := dict_item r "latitude" in
      let* lon := dict_item r "longitude" in
      let tz := dict_get r "timezone" (PStr "auto") in
      Ok (Some (<["name" := name]> (<["country" := country]>
               (<["lat" := lat]> (<["lon" := lon]> (<["tz" := tz]> ∅))))))
  end.

(** The value sent as [forecast_days]. *)
Definition forecast_days (days : Z) : Z := Z.max 1 (Z.min days 16).

Definition forecast_params (lat lon : pyval) (days : Z) (unit : string)
    (tz : pyval) : list (string * pyval) :=
  [ ("latitude", lat);
    ("longitude", lon);
    ("current_weather", PStr "true");
    ("daily", PStr "temperature_2m_max,temperature_2m_min,precipitation_probability_max");
    ("timezone", py_or tz (PStr "auto"));
    ("forecast_days", PInt (forecast_days days));
    ("temperature_unit", PStr (temp_unit unit));
    ("wind_speed_unit", PStr (wind_unit unit)) ].

Definition fetch_weather (lat lon : pyval) (days : Z) (unit : string)
    (tz : pyval) : result forecast_data :=
  let params := urlencode (forecast_params lat lon days unit tz) in
  _get_json (urlopen_forecast params).

(** The [try]/[except] around the timestamp: a value that is not text,
    or text that does not parse, is rendered with [str]. *)
Definition format_when (time_str : pyval) : string :=
  match time_str with
  | PStr s =>
      match fromisoformat s with
      | Some dt => strftime dt
      | None => py_str time_str
      end
  | _ => py_str time_str
  end.

Definition format_current (current : option dict) (unit : string) : result string :=
  match current with
  | None => Ok "Current: (no data)"
  | Some cur =>
      if negb (dict_truthy current) then Ok "Current: (no data)" else
      let* code := py_int (dict_get cur "weathercode" (PInt (-1))) in
      let desc := wmo_desc code in
      let temp := dict_get cur "temperature" PNone in
      let wind := dict_get cur "windspeed" PNone in
      let time_str := dict_get cur "time" PNone in
      let when := format_when time_str in
      Ok ("Current (" +:+ when +:+ "): " +:+ desc +:+ ", "
          +:+ py_str temp +:+ u_temp unit
          +:+ ", wind " +:+ py_str wind +:+ " " +:+ u_wind unit)
  end.

(** The text appended after the temperatures of day [i]. *)
Definition rain_clause (pop : list pyval) (i : Z) : result string :=
  let* wanted :=
    (if Z.ltb i (py_len pop)
     then let* p := py_getitem pop i in Ok (negb (is_none p))
     else Ok false) in
  if wanted : bool
  then let* p := py_getitem pop i in
       Ok ("  (rain prob " +:+ py_str p +:+ "%)")
  else Ok "".

(** The argument of [lines.append] at index [i]. *)
Definition daily_line (dates tmax tmin pop : list pyval) (unit : string)
    (i : Z) : result string :=
  let* d := py_getitem dates i in
  let* lo := py_getitem tmin i in
  let* hi := py_getitem tmax i in
  let* rain := rain_clause pop i in
  Ok ("  " +:+ py_str d +:+ "  min " +:+ py_str lo +:+ u_temp unit
      +:+ " / max " +:+ py_str hi +:+ u_temp unit +:+ rain).

(** [for i in idx: lines.append(body(i))] *)
Fixpoint for_append (idx : list Z) (body : Z -> result string)
    (lines : list string) : result (list string) :=
  match idx with
  | [] => Ok lines
  | i :: rest =>
      let* line := body i in
      for_append rest body (lines ++ [line])
  end.

(** The list [lines] of [format_daily] when the loop has ended. *)
Definition format_daily_lines (daily : gmap string (list pyval))
    (unit : string) (days : Z) : result (list string) :=
  let dates := dict_get daily "time" [] in
  let tmax := dict_get daily "temperature_2m_max" [] in
  let tmin := dict_get daily "temperature_2m_min" [] in
  let pop := dict_get daily "precipitation_probability_max" [] in
  for_append (py_range (Z.min days (py_len dates)))
             (daily_line dates tmax tmin pop unit) ["Forecast:"].

Definition format_daily (daily : option (gmap string (list pyval)))
    (unit : string) (days : Z) : result string :=
  match daily with
  | None => Ok "Forecast: (no data)"
  | Some d =>
      if negb (dict_truthy daily) then Ok "Forecast: (no data)" else
      let* lines := format_daily_lines d unit days in
      Ok (py_join newline lines)
  end.

(** The local [header] of [main]. *)
Definition header (where_ : dict) : result string :=
  let* name := dict_item where_ "name" in
  let country := dict_get where_ "country" (PStr "") in
  Ok (py_strip is_comma
        (py_strip is_space (py_str name +:+ ", " +:+ py_str country))).

Definition not_found_message (place : string) : string :=
  "Could not find a place named '" +:+ place
  +:+ "'. Try a more specific name.".

(** [main], from the parsed arguments on. *)
Definition main (a : args) : io Z :=
  let! where_ := lift (geocode (place a) (lang a)) in
  if negb (dict_truthy where_) then
    let! _ := print_err (not_found_message (place a)) in
    io_ret 2
  else
    (* [where_] holds a dict from here on *)
    let w := default ∅ where_ in
    let! lat := lift (dict_item w "lat") in
    let! lon := lift (dict_item w "lon") in
    let! tz := lift (dict_item w "tz") in
    let! data := lift (fetch_weather lat lon (days a) (unit a) tz) in
    let! hd := lift (header w) in
    let! lat' := lift (dict_item w "lat") in
    let! lon' := lift (dict_item w "lon") in
    let! _ := print (hd +:+ "  (lat " +:+ py_str lat' +:+ ", lon "
                     +:+ py_str lon' +:+ ")") in
    let! cur := lift (format_current (current_weather data) (unit a)) in
    let! _ := print cur in
    let! dly := lift (format_daily (daily data) (unit a) (days a)) in
    let! _ := print dly in
    io_ret 0.

Definition run (a : args) : result Z * streams :=
  main a {| stdout := []; stderr := [] |}.

End Program.

(** ** The clamp, in the words of the specification *)

(** Values below 1 become 1, values above 16 become 16. *)
Definition clamp_1_16 (days : Z) : Z :=
  if Z.ltb days 1 then 1 else if Z.ltb 16 days then 16 else days.

(** The pairing of requested units and printed suffixes that the
    specification asks for. *)
Inductive units_agree : string -> string -> string -> string -> Prop :=
| agree_metric : units_agree "celsius" "kmh" "°C" "km/h"
| agree_imperial : units_agree "fahrenheit" "mph" "°F" "mph".

(** The rain clause of day [i], read off the sequence without indexing. *)
Definition rain_text (pop : list pyval) (i : Z) : string :=
  match pop !! Z.to_nat i with
  | Some p => if is_none p then "" else "  (rain prob " +:+ py_str p +:+ "%)"
  | None => ""
  end.

(** The text of one day, given its date, minimum, maximum and rain clause. *)
Definition day_text (unit : string) (d lo hi : pyval) (rain : string) : string :=
  "  " +:+ py_str d +:+ "  min " +:+ py_str lo +:+ u_temp unit
  +:+ " / max " +:+ py_str hi +:+ u_temp unit +:+ rain.

(** The line of day [i] when every sequence reaches [i]. *)
Definition line_at (dates tmax tmin pop : list pyval) (unit : string) (i : Z)
    : string :=
  day_text unit (default PNone (dates !! Z.to_nat i))
    (default PNone (tmin !! Z.to_nat i)) (default PNone (tmax !! Z.to_nat i))
    (rain_text pop i).

(** ** Reading [YYYY-MM-DD?HH:MM] *)

Definition digit_value (c : ascii) : option Z :=
  let n := Z.of_N (N_of_ascii c) in
  if Z.leb 48 n && Z.leb n 57 then Some (n - 48) else None.

Fixpoint read_digits (k : nat) (s : string) (acc : Z) : option (Z * string) :=
  match k with
  | O => Some (acc, s)
  | S k' =>
      match s with
      | String c rest =>
          match digit_value c with
          | Some d => read_digits k' rest (10 * acc + d)
          | None => None
          end
      | EmptyString => None
      end
  end.

Definition expect (c : ascii) (s : string) : option string :=
  match s with
  | String c' rest => if Ascii.eqb c c' then Some rest else None
  | EmptyString => None
  end.

Definition read_ymdhm (sep : ascii) (s : string) : option datetime :=
  y ← read_digits 4 s 0;
  s1 ← expect "-" y.2;
  m ← read_digits 2 s1 0;
  s2 ← expect "-" m.2;
  d ← read_digits 2 s2 0;
  s3 ← expect sep d.2;
  h ← read_digits 2 s3 0;
  s4 ← expect ":" h.2;
  mi ← read_digits 2 s4 0;
  match mi.2 with
  | EmptyString => Some (DateTime y.1 m.1 d.1 h.1 mi.1)
  | _ => None
  end.

(** Sixteen characters, digits around the separators [-], [-], [ ], [:]. *)
Definition shape_ymdhm (s : string) : bool :=
  bool_decide (is_Some (read_ymdhm " " s)).

Definition is_leap (y : Z) : bool :=
  Z.eqb (y mod 4) 0 && (negb (Z.eqb (y mod 100) 0) || Z.eqb (y mod 400) 0).

Definition days_in_month (y m : Z) : Z :=
  if Z.eqb m 2 then (if is_leap y then 29 else 28)
  else if Z.eqb m 4 || Z.eqb m 6 || Z.eqb m 9 || Z.eqb m 11 then 30
  else 31.

Definition calendar_ok (dt : datetime) : bool :=
  Z.leb 1 (year dt) && Z.leb 1 (month dt) && Z.leb (month dt) 12
  && Z.leb 1 (day dt) && Z.leb (day dt) (days_in_month (year dt) (month dt))
  && Z.leb (hour dt) 23 && Z.leb (minute dt) 59.

(** ** The ends of a text *)

Definition first_char (s : string) : option ascii :=
  match s with
  | String c _ => Some c
  | EmptyString => None
  end.

Fixpoint last_char (s : string) : option ascii :=
  match s with
  | EmptyString => None
  | String c EmptyString => Some c
  | String _ rest => last_char rest
  end.

(** [p] holds of neither end of [s]; the empty text has no ends. *)
Definition clean_ends (p : ascii -> bool) (s : string) : Prop :=
  (forall c, first_char s = Some c -> p c = false)
  /\ (forall c, last_char s = Some c -> p c = false).

(** A byte that cannot stand at the end of a plain text: white space, a
    comma, or a byte of a character outside ASCII. *)
Definition not_plain (c : ascii) : bool :=
  is_space c || is_comma c || (128 <=? N_of_ascii c)%N.

(** ** Sample services and payloads, for the examples below *)

Module Sample.

(** The part of [datetime.fromisoformat] that reads [YYYY-MM-DDTHH:MM],
    the form in which the forecast service writes its timestamps. *)
Definition fromisoformat (s : string) : option datetime :=
  dt ← read_ymdhm "T" s;
  if calendar_ok dt then Some dt else None.

(** The part of [int] on text that reads a run of ASCII digits with an
    optional sign. *)
Fixpoint digits_value (s : string) (acc : Z) : option Z :=
  match s with
  | EmptyString => Some acc
  | String c rest =>
      match digit_value c with
      | Some d => digits_value rest (10 * acc + d)
      | None => None
      end
  end.

Definition int_of_str (s : string) : option Z :=
  match s with
  | EmptyString => None
  | String "-" (String c rest) => Z.opp <$> digits_value (String c rest) 0
  | String "+" (String c rest) => digits_value (String c rest) 0
  | _ => digits_value s 0
  end.

Definition float (text : string) (trunc : Z) : pyval :=
  PFloat (PyFloat text (Ok trunc) (negb (String.eqb text "0.0"))).

Definition berlin : dict :=
  <["name" := PStr "Berlin"]> (<["country" := PStr "Germany"]>
  (<["latitude" := float "52.52" 52]> (<["longitude" := float "13.41" 13]>
  (<["timezone" := PStr "Europe/Berlin"]> ∅)))).

(** A result of the geocoding service that carries no country. *)
Definition berlin_no_country : dict := delete "country" berlin.

Definition current : dict :=
  <["time" := PStr "2024-05-01T12:00"]> (<["weathercode" := PInt 3]>
  (<["temperature" := float "21.5" 21]> (<["windspeed" := float "10.1" 10]> ∅))).

Definition daily : gmap string (list pyval) :=
  <["time" := [PStr "2024-05-01"; PStr "2024-05-02"; PStr "2024-05-03"]]>
  (<["temperature_2m_max" := [float "20.0" 20; float "21.0" 21; float "22.0" 22]]>
  (<["temperature_2m_min" := [float "10.0" 10; float "11.0" 11; float "12.0" 12]]>
  (<["precipitation_probability_max" := [PInt 5; PNone]]> ∅))).

(** A daily block whose minimum temperatures stop one day early. *)
Definition daily_short_min : gmap string (list pyval) :=
  <["temperature_2m_min" := [float "10.0" 10; float "11.0" 11]]> daily.

(** A daily block with [n] entries in every sequence. *)
Definition daily_of (n : nat) : gmap string (list pyval) :=
  <["time" := replicate n (PStr "2024-05-01")]>
  (<["temperature_2m_max" := replicate n (PInt 20)]>
  (<["temperature_2m_min" := replicate n (PInt 10)]>
  (<["precipitation_probability_max" := replicate n (PInt 5)]> ∅))).

Definition geocoding (found : list dict) (query : list (string * string))
    : http_reply geo_data :=
  Reply 200 (inl (GeoData (Some found))).

Definition forecast (query : list (string * string))
    : http_reply forecast_data :=
  Reply 200 (inl (ForecastData (Some current) (Some daily))).

Definition run (found : list dict) (a : args) : result Z * streams :=
  run (geocoding found) forecast int_of_str fromisoformat a.

End Sample.

Example sample_run_berlin :
  Sample.run [Sample.berlin] (Args "Berlin" 3 "metric" "en")
  = (Ok 0,
     {| stdout :=
          [ "Berlin, Germany  (lat 52.52, lon 13.41)";
            "Current (2024-05-01 12:00): Overcast, 21.5°C, wind 10.1 km/h";
            py_join newline
              [ "Forecast:";
                "  2024-05-01  min 10.0°C / max 20.0°C  (rain prob 5%)";
                "  2024-05-02  min 11.0°C / max 21.0°C";
                "  2024-05-03  min 12.0°C / max 22.0°C" ] ];
        stderr := [] |}).
Proof. vm_compute. reflexivity. Qed.

(** * Properties *)

(** ** Indexing and the display loop *)

Lemma py_getitem_nonneg {A} (l : list A) (i : Z) :
  0 <= i ->
  py_getitem l i =
    match l !! Z.to_nat i with
    | Some x => Ok x
    | None => Raise IndexError
    end.
Proof.
  intros Hi. unfold py_getitem, py_len.
  destruct (Z.ltb_spec i 0) as [?|_]; [lia|].
  destruct (Z.ltb_spec i 0) as [?|_]; [lia|]. simpl.
  destruct (Z.leb_spec (Z.of_nat (length l)) i) as [Hge|Hlt]; [|done].
  rewrite lookup_ge_None_2; [done|lia].
Qed.

Lemma py_getitem_in_range {A} (l : list A) (i : Z) :
  0 <= i < py_len l -> exists x, l !! Z.to_nat i = Some x /\ py_getitem l i = Ok x.
Proof.
  intros [Hi Hlt]. unfold py_len in Hlt.
  destruct (lookup_lt_is_Some_2 l (Z.to_nat i)) as [x Hx]; [lia|].
  exists x. split; [done|]. by rewrite py_getitem_nonneg, Hx.
Qed.

Lemma py_getitem_past_end {A} (l : list A) (i : Z) :
  0 <= i -> py_len l <= i -> py_getitem l i = Raise IndexError.
Proof.
  intros Hi Hge. unfold py_len in Hge.
  rewrite py_getitem_nonneg by done.
  rewrite lookup_ge_None_2; [done|lia].
Qed.

(** The guard [i < len(pop)] keeps both uses of [pop[i]] in range. *)
Lemma rain_clause_total (pop : list pyval) (i : Z) :
  0 <= i -> rain_clause pop i = Ok (rain_text pop i).
Proof.
  intros Hi. unfold rain_clause, rain_text.
  destruct (Z.ltb_spec i (py_len pop)) as [Hlt|Hge].
  - destruct (py_getitem_in_range pop i) as (p & Hp & Hget); [lia|].
    rewrite Hget, Hp. simpl. by destruct (is_none p).
  - simpl. unfold py_len in Hge. rewrite lookup_ge_None_2; [done|lia].
Qed.

Lemma for_append_ok (idx : list Z) (body : Z -> result string)
    (f : Z -> string) (lines : list string) :
  (forall i, i ∈ idx -> body i = Ok (f i)) ->
  for_append idx body lines = Ok (lines ++ map f idx)%list.
Proof.
  revert lines. induction idx as [|i idx IH]; intros lines Hbody; simpl.
  - by rewrite app_nil_r.
  - rewrite (Hbody i) by apply list_elem_of_here. simpl.
    rewrite IH; [|intros j Hj; apply Hbody; by apply list_elem_of_further].
    by rewrite <- app_assoc.
Qed.

Lemma for_append_inv (idx : list Z) (body : Z -> result string)
    (lines out : list string) :
  for_append idx body lines = Ok out ->
  exists new, out = (lines ++ new)%list /\ Forall2 (fun i line => body i = Ok line) idx new.
Proof.
  revert lines. induction idx as [|i idx IH]; intros lines H; simpl in H.
  - exists []. split; [|constructor]. injection H as <-. by rewrite app_nil_r.
  - destruct (body i) as [line|e] eqn:Hb; simpl in H; [|discriminate].
    destruct (IH _ H) as (new & -> & Hall).
    exists (line :: new). split; [by rewrite <- app_assoc|by constructor].
Qed.

Lemma for_append_raise (before after : list Z) (i : Z)
    (body : Z -> result string) (f : Z -> string) (e : exn) (lines : list string) :
  (forall j, j ∈ before -> body j = Ok (f j)) ->
  body i = Raise e ->
  for_append (before ++ i :: after) body lines = Raise e.
Proof.
  revert lines. induction before as [|j before IH]; intros lines Hok Hi; simpl.
  - by rewrite Hi.
  - rewrite (Hok j) by apply list_elem_of_here. simpl.
    apply IH; [|done]. intros k Hk. apply Hok. by apply list_elem_of_further.
Qed.

Lemma py_range_elem (n i : Z) : i ∈ py_range n <-> 0 <= i < n.
Proof. unfold py_range. rewrite elem_of_seqZ. lia. Qed.

Lemma py_range_length (n : Z) : length (py_range n) = Z.to_nat n.
Proof. unfold py_range. apply length_seqZ. Qed.

Lemma py_range_split (m n : Z) :
  0 <= m < n -> py_range n = (py_range m ++ m :: seqZ (m + 1) (n - m - 1))%list.
Proof.
  intros H. unfold py_range.
  replace n with (m + (n - m)) at 1 by lia.
  rewrite seqZ_app by lia. f_equal.
  rewrite (seqZ_cons _ (n - m)) by lia.
  repeat (f_equal; try lia).
Qed.

Lemma daily_line_ok (dates tmax tmin pop : list pyval) (unit : string) (i : Z) :
  0 <= i -> i < py_len dates -> i < py_len tmin -> i < py_len tmax ->
  daily_line dates tmax tmin pop unit i = Ok (line_at dates tmax tmin pop unit i).
Proof.
  intros Hi Hd Hlo Hhi. unfold daily_line, line_at.
  destruct (py_getitem_in_range dates i) as (d & -> & ->); [lia|].
  destruct (py_getitem_in_range tmin i) as (lo & -> & ->); [lia|].
  destruct (py_getitem_in_range tmax i) as (hi & -> & ->); [lia|].
  by rewrite rain_clause_total.
Qed.

Lemma daily_line_inv (dates tmax tmin pop : list pyval) (unit : string)
    (i : Z) (line : string) :
  0 <= i -> daily_line dates tmax tmin pop unit i = Ok line ->
  exists d lo hi,
    dates !! Z.to_nat i = Some d /\ tmin !! Z.to_nat i = Some lo /\
    tmax !! Z.to_nat i = Some hi /\
    line = day_text unit d lo hi (rain_text pop i).
Proof.
  intros Hi. unfold daily_line.
  rewrite !py_getitem_nonneg, rain_clause_total by done.
  destruct (dates !! Z.to_nat i) as [d|]; simpl; [|discriminate].
  destruct (tmin !! Z.to_nat i) as [lo|]; simpl; [|discriminate].
  destruct (tmax !! Z.to_nat i) as [hi|]; simpl; [|discriminate].
  intros [= <-]. by exists d, lo, hi.
Qed.

(** When the minimum and maximum sequences reach as far as the loop runs,
    the loop completes whatever the rain sequence holds. *)
Lemma format_daily_lines_ok (d : gmap string (list pyval)) (unit : string)
    (days : Z) :
  let dates := dict_get d "time" [] in
  let tmax := dict_get d "temperature_2m_max" [] in
  let tmin := dict_get d "temperature_2m_min" [] in
  let pop := dict_get d "precipitation_probability_max" [] in
  let n := Z.min days (py_len dates) in
  n <= py_len tmin -> n <= py_len tmax ->
  format_daily_lines d unit days =
    Ok ("Forecast:" :: map (line_at dates tmax tmin pop unit) (py_range n)).
Proof.
  intros dates tmax tmin pop n Hlo Hhi. unfold format_daily_lines.
  fold dates tmax tmin pop n.
  rewrite (for_append_ok _ _ (line_at dates tmax tmin pop unit)); [done|].
  intros i Hi%py_range_elem. apply daily_line_ok; lia.
Qed.

(** When the minimum or the maximum sequence ends before the loop does,
    the loop raises [IndexError]. *)
Lemma format_daily_lines_short (d : gmap string (list pyval)) (unit : string)
    (days : Z) :
  let dates := dict_get d "time" [] in
  let tmax := dict_get d "temperature_2m_max" [] in
  let tmin := dict_get d "temperature_2m_min" [] in
  Z.min (py_len tmin) (py_len tmax) < Z.min days (py_len dates) ->
  format_daily_lines d unit days = Raise IndexError.
Proof.
  intros dates tmax tmin Hshort. unfold format_daily_lines.
  fold dates tmax tmin.
  set (pop := dict_get d "precipitation_probability_max" []).
  set (m := Z.min (py_len tmin) (py_len tmax)) in *.
  assert (0 <= m) by (unfold m, py_len; lia).
  rewrite (py_range_split m) by lia.
  apply for_append_raise with (f := line_at dates tmax tmin pop unit).
  - intros j Hj%py_range_elem. apply daily_line_ok; lia.
  - unfold daily_line.
    destruct (py_getitem_in_range dates m) as (x & _ & ->); [lia|]. simpl.
    destruct (Z.le_gt_cases (py_len tmin) m) as [Hlo|Hlo].
    + by rewrite (py_getitem_past_end tmin) by lia.
    + destruct (py_getitem_in_range tmin m) as (lo & _ & ->); [lia|]. simpl.
      by rewrite (py_getitem_past_end tmax) by lia.
Qed.

Lemma format_daily_present (d : gmap string (list pyval)) (unit : string)
    (days : Z) :
  d <> ∅ ->
  format_daily (Some d) unit days =
    rbind (format_daily_lines d unit days) (fun lines => Ok (py_join newline lines)).
Proof.
  intros Hd. unfold format_daily, dict_truthy.
  by rewrite bool_decide_eq_false_2.
Qed.

(** ** The request sent to the forecast service *)

Lemma forecast_days_clamp (days : Z) : forecast_days days = clamp_1_16 days.
Proof.
  unfold forecast_days, clamp_1_16.
  destruct (Z.ltb_spec days 1), (Z.ltb_spec 16 days); lia.
Qed.

(** C1: for every integer [days], negative, zero or above 16 included, the
    [forecast_days] entry that [fetch_weather] puts into the request
    parameters (and so into the encoded query it hands to the transport)
    is the clamp of [days] into the closed range 1..16: values below 1
    become 1 and values above 16 become 16. *)
Theorem forecast_days_clamped
    (urlopen_forecast : list (string * string) -> http_reply forecast_data)
    (lat lon tz : pyval) (days : Z) (unit : string) :
  (list_to_map (forecast_params lat lon days unit tz) : dict) !! "forecast_days"
    = Some (PInt (clamp_1_16 days))
  /\ fetch_weather urlopen_forecast lat lon days unit tz
     = _get_json (urlopen_forecast (urlencode (forecast_params lat lon days unit tz)))
  /\ (list_to_map (urlencode (forecast_params lat lon days unit tz))
        : gmap string string) !! "forecast_days"
     = Some (pretty (clamp_1_16 days))
  /\ 1 <= clamp_1_16 days <= 16
  /\ clamp_1_16 (-3) = 1 /\ clamp_1_16 0 = 1 /\ clamp_1_16 17 = 16.
Proof.
  assert (1 <= clamp_1_16 days <= 16) as Hrange.
  { unfold clamp_1_16.
    destruct (Z.ltb_spec days 1), (Z.ltb_spec 16 days); lia. }
  unfold fetch_weather, forecast_params. rewrite forecast_days_clamp.
  revert Hrange. generalize (clamp_1_16 days). intros c Hrange.
  split; [reflexivity|]. split; [reflexivity|]. split; [reflexivity|].
  split; [exact Hrange|]. by vm_compute.
Qed.

(** ** Units *)

Lemma units_agree_any (unit : string) :
  units_agree (temp_unit unit) (wind_unit unit) (u_temp unit) (u_wind unit).
Proof.
  unfold temp_unit, wind_unit, u_temp, u_wind.
  destruct (imperial unit); constructor.
Qed.

Lemma format_current_present
    (int_of_str : string -> option Z) (fromisoformat : string -> option datetime)
    (cur : dict) (unit : string) :
  cur <> ∅ ->
  format_current int_of_str fromisoformat (Some cur) unit =
    rbind (py_int int_of_str (dict_get cur "weathercode" (PInt (-1))))
      (fun code =>
         Ok ("Current (" +:+ format_when fromisoformat (dict_get cur "time" PNone)
             +:+ "): " +:+ wmo_desc code +:+ ", "
             +:+ py_str (dict_get cur "temperature" PNone) +:+ u_temp unit
             +:+ ", wind " +:+ py_str (dict_get cur "windspeed" PNone)
             +:+ " " +:+ u_wind unit)).
Proof.
  intros Hcur. unfold format_current, dict_truthy.
  by rewrite bool_decide_eq_false_2.
Qed.

Lemma format_current_absent
    (int_of_str : string -> option Z) (fromisoformat : string -> option datetime)
    (unit : string) :
  format_current int_of_str fromisoformat (Some ∅) unit = Ok "Current: (no data)".
Proof. reflexivity. Qed.

Lemma string_app_assoc (a b c : string) : (a +:+ b) +:+ c = a +:+ (b +:+ c).
Proof.
  induction a as [|x a IH]; [reflexivity|].
  change (String x ((a +:+ b) +:+ c) = String x (a +:+ b +:+ c)).
  by f_equal.
Qed.

(** C2: for every unit system the units requested from the forecast
    service and the suffixes printed agree.  With [metric],
    [fetch_weather] requests celsius and kmh and the formatters print °C
    and km/h; with [imperial] it requests fahrenheit and mph and they
    print °F and mph.  [fetch_weather] hands the transport a query whose
    unit entries, the line that [format_current] returns and every day
    line of the text that [format_daily] returns are built from one and
    the same reading of [unit], so a Celsius value never meets a °F
    suffix. *)
Theorem units_requested_and_printed (unit : string) :
  units_agree (temp_unit unit) (wind_unit unit) (u_temp unit) (u_wind unit)
  /\ units_agree (temp_unit "metric") (wind_unit "metric")
                 (u_temp "metric") (u_wind "metric")
  /\ temp_unit "metric" = "celsius" /\ u_temp "metric" = "°C"
  /\ temp_unit "imperial" = "fahrenheit" /\ wind_unit "imperial" = "mph"
  /\ u_temp "imperial" = "°F" /\ u_wind "imperial" = "mph"
  /\ (forall lat lon tz days,
        let params : dict := list_to_map (forecast_params lat lon days unit tz) in
        params !! "temperature_unit" = Some (PStr (temp_unit unit))
        /\ params !! "wind_speed_unit" = Some (PStr (wind_unit unit)))
  /\ (forall int_of_str fromisoformat cur line,
        format_current int_of_str fromisoformat cur unit = Ok line ->
        line = "Current: (no data)"
        \/ exists front temp wind,
             line = front +:+ temp +:+ u_temp unit
                    +:+ ", wind " +:+ wind +:+ " " +:+ u_wind unit)
  /\ (forall d days lines line,
        format_daily_lines d unit days = Ok lines ->
        line ∈ tail lines ->
        exists day lo hi rain,
          line = "  " +:+ py_str day +:+ "  min " +:+ py_str lo +:+ u_temp unit
                 +:+ " / max " +:+ py_str hi +:+ u_temp unit +:+ rain)
  /\ (forall urlopen_forecast lat lon tz days,
        let query := urlencode (forecast_params lat lon days unit tz) in
        fetch_weather urlopen_forecast lat lon days unit tz
        = _get_json (urlopen_forecast query)
        /\ (list_to_map query : gmap string string) !! "temperature_unit"
           = Some (temp_unit unit)
        /\ (list_to_map query : gmap string string) !! "wind_speed_unit"
           = Some (wind_unit unit))
  /\ (forall int_of_str fromisoformat cur code,
        cur <> ∅ ->
        py_int int_of_str (dict_get cur "weathercode" (PInt (-1))) = Ok code ->
        format_current int_of_str fromisoformat (Some cur) unit
        = Ok ("Current (" +:+ format_when fromisoformat (dict_get cur "time" PNone)
              +:+ "): " +:+ wmo_desc code +:+ ", "
              +:+ py_str (dict_get cur "temperature" PNone) +:+ u_temp unit
              +:+ ", wind " +:+ py_str (dict_get cur "windspeed" PNone)
              +:+ " " +:+ u_wind unit))
  /\ (forall d days text,
        d <> ∅ ->
        format_daily (Some d) unit days = Ok text ->
        exists rest,
          text = py_join newline ("Forecast:" :: rest)
          /\ length rest
             = Z.to_nat (Z.min days (py_len (dict_get d "time" [])))
          /\ forall (k : nat) line,
               rest !! k = Some line ->
               exists day lo hi rain,
                 dict_get d "time" [] !! k = Some day
                 /\ dict_get d "temperature_2m_min" [] !! k = Some lo
                 /\ dict_get d "temperature_2m_max" [] !! k = Some hi
                 /\ line = "  " +:+ py_str day +:+ "  min " +:+ py_str lo
                           +:+ u_temp unit +:+ " / max " +:+ py_str hi
                           +:+ u_temp unit +:+ rain)
  /\ (forall d days,
        d <> ∅ ->
        let n := Z.min days (py_len (dict_get d "time" [])) in
        n <= py_len (dict_get d "temperature_2m_min" []) ->
        n <= py_len (dict_get d "temperature_2m_max" []) ->
        exists text, format_daily (Some d) unit days = Ok text).
Proof.
  split; [apply units_agree_any|]. split; [apply units_agree_any|].
  do 6 (split; [reflexivity|]).
  split; [intros; split; reflexivity|].
  split; [|split; [|split; [|split; [|split]]]].
  - intros ios iso [cur|] line; [|intros [= <-]; by left].
    destruct (decide (cur = ∅)) as [->|Hne].
    { rewrite format_current_absent. intros [= <-]. by left. }
    rewrite format_current_present by done.
    destruct (py_int _ _) as [code|e]; simpl; [|discriminate].
    intros [= <-]. right.
    exists ("Current (" +:+ format_when iso (dict_get cur "time" PNone)
            +:+ "): " +:+ wmo_desc code +:+ ", "),
      (py_str (dict_get cur "temperature" PNone)),
      (py_str (dict_get cur "windspeed" PNone)).
    by rewrite !string_app_assoc.
  - intros d days lines line Hlines Hin.
    apply for_append_inv in Hlines as (new & -> & Hall). simpl in Hin.
    apply list_elem_of_lookup in Hin as [k Hk].
    destruct (Forall2_lookup_r _ _ _ _ _ Hall Hk) as (i & Hi & Hbody).
    apply lookup_seqZ in Hi as [-> _].
    apply daily_line_inv in Hbody as (day & lo & hi & _ & _ & _ & ->); [|lia].
    by eexists day, lo, hi, _.
  - intros urlopen_forecast lat lon tz days. repeat split.
  - intros ios iso cur code Hne Hcode.
    rewrite format_current_present by done. by rewrite Hcode.
  - intros d days text Hne. rewrite format_daily_present by done.
    destruct (format_daily_lines d unit days) as [lines|e] eqn:Hlines;
      simpl; [|discriminate].
    intros [= <-]. unfold format_daily_lines in Hlines.
    apply for_append_inv in Hlines as (rest & -> & Hall).
    exists rest. split; [done|]. split.
    { rewrite <- (Forall2_length _ _ _ Hall). apply py_range_length. }
    intros k line Hk.
    destruct (Forall2_lookup_r _ _ _ _ _ Hall Hk) as (i & Hi & Hbody).
    apply lookup_seqZ in Hi as [-> _].
    apply daily_line_inv in Hbody as (day & lo & hi & Hd & Hlo & Hhi & ->);
      [|lia].
    replace (Z.to_nat (0 + Z.of_nat k)) with k in * by lia.
    by eexists day, lo, hi, _.
  - intros d days Hne n Hlo Hhi. rewrite format_daily_present by done.
    rewrite format_daily_lines_ok by done. by eexists.
Qed.

Lemma units_requested_and_printed_witness :
  (exists front temp wind,
     "Current (2024-05-01 12:00): Overcast, 21.5°C, wind 10.1 km/h"
     = front +:+ temp +:+ u_temp "metric"
       +:+ ", wind " +:+ wind +:+ " " +:+ u_wind "metric")
  /\ (exists day lo hi rain,
        "  2024-05-02  min 11.0°C / max 21.0°C"
        = "  " +:+ py_str day +:+ "  min " +:+ py_str lo +:+ u_temp "metric"
          +:+ " / max " +:+ py_str hi +:+ u_temp "metric" +:+ rain)
  /\ format_current Sample.int_of_str Sample.fromisoformat
       (Some Sample.current) "imperial"
     = Ok "Current (2024-05-01 12:00): Overcast, 21.5°F, wind 10.1 mph"
  /\ (exists text rest,
        format_daily (Some Sample.daily) "imperial" 2 = Ok text
        /\ text = py_join newline ("Forecast:" :: rest)
        /\ length rest = 2%nat)
  /\ (exists text, format_daily (Some Sample.daily) "metric" 3 = Ok text)
  /\ (fetch_weather Sample.forecast PNone PNone 3 "imperial" PNone
      = _get_json (Sample.forecast
                     (urlencode (forecast_params PNone PNone 3 "imperial" PNone)))
      /\ (list_to_map (urlencode (forecast_params PNone PNone 3 "imperial" PNone))
            : gmap string string) !! "temperature_unit" = Some "fahrenheit").
Proof.
  destruct (units_requested_and_printed "metric")
    as (_ & _ & _ & _ & _ & _ & _ & _ & _ & Hcur & Hday & _ & _ & _ & Hok).
  destruct (units_requested_and_printed "imperial")
    as (_ & _ & _ & _ & _ & _ & _ & _ & _ & _ & _ & Hfetch & Hline & Hdaily & _).
  assert (Sample.daily <> ∅) as Hdaily_ne.
  { intros H. apply (f_equal (fun m => m !! "time")) in H. discriminate H. }
  split; [|split; [|split; [|split; [|split]]]].
  - destruct (Hcur Sample.int_of_str Sample.fromisoformat
                (Some Sample.current) _ eq_refl) as [H|H].
    + discriminate H.
    + exact H.
  - apply (Hday Sample.daily 3 _ _ eq_refl).
    vm_compute. apply list_elem_of_further, list_elem_of_here.
  - apply (Hline Sample.int_of_str Sample.fromisoformat Sample.current 3).
    + intros H. apply (f_equal (fun m => m !! "time")) in H. discriminate H.
    + reflexivity.
  - destruct (Hdaily Sample.daily 2 _ Hdaily_ne eq_refl)
      as (rest & Htext & Hlen & _).
    eexists _, rest. split; [reflexivity|]. split; [exact Htext|exact Hlen].
  - apply (Hok Sample.daily 3 Hdaily_ne); vm_compute; discriminate.
  - destruct (Hfetch Sample.forecast PNone PNone PNone 3) as (Hcall & Htemp & _).
    split; [exact Hcall|exact Htemp].
Defined.

(** ** The daily block *)

(** C3: for every daily payload and requested day count, [format_daily]
    puts after the header exactly as many day lines as [range(min(days,
    len(dates)))] has indices, so never more than the requested days and
    never more than there are dates.  The rain clause of the line at
    index [k] is there only when [k] is below the length of the
    precipitation sequence and the value at [k] is not [None]; the guard
    keeps every [pop[i]] in range, so the clause never raises, and
    whether the loop completes does not depend on the precipitation
    sequence at all. *)
Theorem daily_lines_bounded (d : gmap string (list pyval)) (unit : string)
    (days : Z) :
  let dates := dict_get d "time" [] in
  let tmax := dict_get d "temperature_2m_max" [] in
  let tmin := dict_get d "temperature_2m_min" [] in
  let pop := dict_get d "precipitation_probability_max" [] in
  (forall lines,
     format_daily_lines d unit days = Ok lines ->
     exists rest,
       lines = "Forecast:" :: rest
       /\ length rest = Z.to_nat (Z.min days (py_len dates))
       /\ (length rest <= Z.to_nat days)%nat
       /\ (length rest <= length dates)%nat
       /\ (forall (k : nat) (line : string),
             rest !! k = Some line ->
             exists day lo hi rain,
               line = day_text unit day lo hi rain
               /\ ((rain = "" /\ (length pop <= k)%nat)
                   \/ (rain = "" /\ pop !! k = Some PNone)
                   \/ (exists p, pop !! k = Some p /\ p <> PNone
                         /\ rain = "  (rain prob " +:+ py_str p +:+ "%)"))))
  /\ (forall i, 0 <= i -> rain_clause pop i = Ok (rain_text pop i))
  /\ (Z.min days (py_len dates) <= py_len tmin ->
      Z.min days (py_len dates) <= py_len tmax ->
      exists lines, format_daily_lines d unit days = Ok lines).
Proof.
  intros dates tmax tmin pop.
  split; [|split; [apply rain_clause_total|]].
  2: { intros Hlo Hhi. eexists. by apply format_daily_lines_ok. }
  intros lines Hlines. unfold format_daily_lines in Hlines.
  fold dates tmax tmin pop in Hlines.
  apply for_append_inv in Hlines as (rest & -> & Hall).
  exists rest. split; [done|].
  assert (length rest = Z.to_nat (Z.min days (py_len dates))) as Hlen.
  { rewrite <- (Forall2_length _ _ _ Hall). apply py_range_length. }
  split; [done|]. unfold py_len in Hlen.
  split; [lia|]. split; [lia|].
  intros k line Hk.
  destruct (Forall2_lookup_r _ _ _ _ _ Hall Hk) as (i & Hi & Hbody).
  apply lookup_seqZ in Hi as [-> _].
  apply daily_line_inv in Hbody as (day & lo & hi & _ & _ & _ & ->); [|lia].
  exists day, lo, hi, (rain_text pop (0 + Z.of_nat k)).
  split; [done|]. unfold rain_text.
  replace (Z.to_nat (0 + Z.of_nat k)) with k by lia.
  destruct (pop !! k) as [p|] eqn:Hp.
  - destruct p; simpl; try (right; right; eexists; by repeat split).
    right; left; done.
  - left. split; [done|]. by apply lookup_ge_None_1.
Qed.

Lemma daily_lines_bounded_witness :
  (exists rest,
     [ "Forecast:";
       "  2024-05-01  min 10.0°C / max 20.0°C  (rain prob 5%)";
       "  2024-05-02  min 11.0°C / max 21.0°C";
       "  2024-05-03  min 12.0°C / max 22.0°C" ] = "Forecast:" :: rest
     /\ length rest = 3%nat)
  /\ (exists lines, format_daily_lines Sample.daily "metric" 5 = Ok lines).
Proof.
  destruct (daily_lines_bounded Sample.daily "metric" 5) as (Hinv & _ & Hok).
  split.
  - destruct (Hinv _ eq_refl) as (rest & Hrest & Hlen & _).
    exists rest. split; [exact Hrest|exact Hlen].
  - apply Hok; vm_compute; discriminate.
Defined.

(** C4: the loop of [format_daily] is bounded by the dates alone.  When
    the minimum or the maximum sequence is shorter than [min(days,
    len(dates))], the line at the first missing index reads past the end
    of that sequence and [format_daily] raises [IndexError]: rendering
    does not stay within the shortest of the three sequences, although
    the rain sequence next to them is guarded. *)
Theorem format_daily_reads_past_short_sequence
    (d : gmap string (list pyval)) (unit : string) (days : Z) :
  let dates := dict_get d "time" [] in
  let tmax := dict_get d "temperature_2m_max" [] in
  let tmin := dict_get d "temperature_2m_min" [] in
  Z.min (py_len tmin) (py_len tmax) < Z.min days (py_len dates) ->
  format_daily (Some d) unit days = Raise IndexError.
Proof.
  intros dates tmax tmin Hshort.
  assert (d <> ∅) as Hne.
  { intros ->. unfold dates, tmin, tmax, dict_get, py_len in Hshort.
    rewrite !lookup_empty in Hshort. simpl in Hshort. lia. }
  rewrite format_daily_present by done.
  by rewrite format_daily_lines_short.
Qed.

Lemma format_daily_reads_past_short_sequence_witness :
  format_daily (Some Sample.daily_short_min) "metric" 3 = Raise IndexError
  /\ format_daily (Some {["time" := [PStr "2024-05-01"]]}) "metric" 1
     = Raise IndexError.
Proof.
  split.
  - apply (format_daily_reads_past_short_sequence Sample.daily_short_min).
    vm_compute. reflexivity.
  - apply (format_daily_reads_past_short_sequence
             {["time" := [PStr "2024-05-01"]]}).
    vm_compute. reflexivity.
Defined.

(** ** The weather-code table *)

Lemma WMO_ITEMS_keys_NoDup : NoDup (WMO_ITEMS.*1).
Proof. apply (bool_decide_unpack _). by vm_compute. Qed.

Lemma string_app_inv_head (s a b : string) : s +:+ a = s +:+ b -> a = b.
Proof.
  induction s as [|x s IH]; [done|].
  change (String x (s +:+ a) = String x (s +:+ b) -> a = b).
  intros [= H]. by apply IH.
Qed.

(** C5: for every integer code that is a key of the static table the
    lookup returns that code's fixed description (3 gives "Overcast");
    for every integer that is not a key it returns the fallback "WMO "
    followed by the decimal text of that very integer (14 gives
    "WMO 14"), so two absent codes never share a fallback.  [wmo_desc] is
    a total function: the lookup never fails. *)
Theorem wmo_lookup (code : Z) :
  (forall desc, (code, desc) ∈ WMO_ITEMS -> wmo_desc code = desc)
  /\ (code ∉ WMO_ITEMS.*1 -> wmo_desc code = "WMO " +:+ pretty code)
  /\ (forall other,
        code ∉ WMO_ITEMS.*1 -> other ∉ WMO_ITEMS.*1 ->
        wmo_desc code = wmo_desc other -> code = other)
  /\ wmo_desc 3 = "Overcast"
  /\ wmo_desc 14 = "WMO 14".
Proof.
  assert (forall c, c ∉ WMO_ITEMS.*1 -> wmo_desc c = "WMO " +:+ pretty c) as Habs.
  { intros c Hc. unfold wmo_desc, WMO_TEXT.
    by rewrite (not_elem_of_list_to_map_1 _ _ Hc). }
  split; [|split; [|split]].
  - intros desc Hin. unfold wmo_desc, WMO_TEXT.
    by rewrite (elem_of_list_to_map_1 _ _ _ WMO_ITEMS_keys_NoDup Hin).
  - apply Habs.
  - intros other Hc Ho. rewrite !Habs by done.
    intros H%string_app_inv_head. by apply (inj pretty).
  - split; by vm_compute.
Qed.

Lemma wmo_lookup_witness :
  wmo_desc 95 = "Thunderstorm" /\ wmo_desc (-1) = "WMO " +:+ pretty (-1).
Proof.
  destruct (wmo_lookup 95) as (Hin & _).
  destruct (wmo_lookup (-1)) as (_ & Hout & _).
  split.
  - apply Hin. apply (bool_decide_unpack _). by vm_compute.
  - apply Hout. apply (bool_decide_unpack _). by vm_compute.
Defined.

(** ** The driver *)

Section Driver.

Variable urlopen_geocoding : list (string * string) -> http_reply geo_data.
Variable urlopen_forecast : list (string * string) -> http_reply forecast_data.
Variable int_of_str : string -> option Z.
Variable fromisoformat : string -> option datetime.


Lemma geocode_inv (place language : string) (found : option dict) :
  geocode urlopen_geocoding place language = Ok found ->
  exists data,
    _get_json (urlopen_geocoding (urlencode (geocode_params place language)))
      = Ok data
    /\ match results data with
       | Some (r :: _) =>
           exists lat lon,
             r !! "latitude" = Some lat /\ r !! "longitude" = Some lon
             /\ found = Some (<["name" := dict_get r "name" PNone]>
                             (<["country" := dict_get r "country" PNone]>
                             (<["lat" := lat]> (<["lon" := lon]>
                             (<["tz" := dict_get r "timezone" (PStr "auto")]> ∅)))))
       | _ => found = None
       end.
Proof.
  unfold geocode.
  destruct (_get_json _) as [data|e]; simpl; [|discriminate].
  intros H. exists data. split; [done|].
  destruct (results data) as [[|r rest]|]; try by injection H.
  unfold dict_item in H.
  destruct (r !! "latitude") as [lat|]; simpl in H; [|discriminate].
  destruct (r !! "longitude") as [lon|]; simpl in H; [|discriminate].
  exists lat, lon. by injection H.
Qed.

Lemma geocode_found_keys (place language : string) (w : dict) :
  geocode urlopen_geocoding place language = Ok (Some w) ->
  w <> ∅ /\ is_Some (w !! "name") /\ is_Some (w !! "country")
  /\ is_Some (w !! "lat") /\ is_Some (w !! "lon") /\ is_Some (w !! "tz").
Proof.
  intros (data & _ & H)%geocode_inv.
  destruct (results data) as [[|r rest]|]; try discriminate.
  destruct H as (lat & lon & _ & _ & [= ->]).
  split; [apply insert_non_empty|].
  repeat split; by eexists.
Qed.

Lemma run_not_found (a : args) :
  geocode urlopen_geocoding (place a) (lang a) = Ok None ->
  run urlopen_geocoding urlopen_forecast int_of_str fromisoformat a = (Ok 2, {| stdout := []; stderr := [not_found_message (place a)] |}).
Proof.
  intros H. unfold run, main, io_bind, lift.
  by rewrite H.
Qed.

Lemma run_rendered (a : args) (w : dict) (lat lon tz : pyval)
    (data : forecast_data) (hd cur dly : string) :
  geocode urlopen_geocoding (place a) (lang a) = Ok (Some w) ->
  dict_item w "lat" = Ok lat ->
  dict_item w "lon" = Ok lon ->
  dict_item w "tz" = Ok tz ->
  fetch_weather urlopen_forecast lat lon (days a) (unit a) tz = Ok data ->
  header w = Ok hd ->
  format_current int_of_str fromisoformat (current_weather data) (unit a) = Ok cur ->
  format_daily (daily data) (unit a) (days a) = Ok dly ->
  run urlopen_geocoding urlopen_forecast int_of_str fromisoformat a =
    (Ok 0,
     {| stdout := [ hd +:+ "  (lat " +:+ py_str lat +:+ ", lon "
                    +:+ py_str lon +:+ ")"; cur; dly ];
        stderr := [] |}).
Proof.
  intros Hgeo Hlat Hlon Htz Hfetch Hhd Hcur Hdly.
  destruct (geocode_found_keys _ _ _ Hgeo) as (Hne & _).
  unfold run, main, io_bind, lift.
  rewrite Hgeo.
  unfold dict_truthy. rewrite bool_decide_eq_false_2 by done. simpl.
  rewrite Hlat, Hlon, Htz, Hfetch, Hhd. simpl.
  by rewrite Hcur, Hdly.
Qed.

Lemma run_returns (a : args) (c : Z) (s : streams) :
  run urlopen_geocoding urlopen_forecast int_of_str fromisoformat a = (Ok c, s) ->
  (c = 2 /\ geocode urlopen_geocoding (place a) (lang a) = Ok None
   /\ s = {| stdout := []; stderr := [not_found_message (place a)] |})
  \/ (c = 0 /\ exists w lat lon tz data hd cur dly,
        geocode urlopen_geocoding (place a) (lang a) = Ok (Some w)
        /\ dict_item w "lat" = Ok lat /\ dict_item w "lon" = Ok lon
        /\ dict_item w "tz" = Ok tz
        /\ fetch_weather urlopen_forecast lat lon (days a) (unit a) tz = Ok data
        /\ header w = Ok hd
        /\ format_current int_of_str fromisoformat (current_weather data) (unit a) = Ok cur
        /\ format_daily (daily data) (unit a) (days a) = Ok dly
        /\ s = {| stdout := [ hd +:+ "  (lat " +:+ py_str lat +:+ ", lon "
                              +:+ py_str lon +:+ ")"; cur; dly ];
                  stderr := [] |}).
Proof.
  destruct (geocode urlopen_geocoding (place a) (lang a)) as [[w|]|e] eqn:Hgeo.
  - destruct (geocode_found_keys _ _ _ Hgeo) as (Hne & _).
    unfold run, main, io_bind, lift.
    rewrite Hgeo.
    unfold dict_truthy. rewrite bool_decide_eq_false_2 by done. simpl.
    destruct (dict_item w "lat") as [lat|] eqn:Hlat; [|discriminate].
    destruct (dict_item w "lon") as [lon|] eqn:Hlon; [|discriminate].
    destruct (dict_item w "tz") as [tz|] eqn:Htz; [|discriminate].
    destruct (fetch_weather urlopen_forecast lat lon (days a) (unit a) tz) as [data|] eqn:Hfetch;
      [|discriminate].
    destruct (header w) as [hd|] eqn:Hhd; [|discriminate]. simpl.
    destruct (format_current _ _ _ _) as [cur|] eqn:Hcur; [|discriminate].
    destruct (format_daily _ _ _) as [dly|] eqn:Hdly; [|discriminate].
    intros [= <- <-]. right. split; [done|].
    by exists w, lat, lon, tz, data, hd, cur, dly.
  - rewrite run_not_found by done. intros [= <- <-]. by left.
  - unfold run, main, io_bind, lift. by rewrite Hgeo.
Qed.

Lemma geocode_no_results (place language : string) (data : geo_data) :
  _get_json (urlopen_geocoding (urlencode (geocode_params place language)))
    = Ok data ->
  results data = None \/ results data = Some [] ->
  geocode urlopen_geocoding place language = Ok None.
Proof.
  intros Hdata Hres. unfold geocode. rewrite Hdata. simpl.
  by destruct Hres as [-> | ->].
Qed.

(** C7: for every place name whose geocoding search yields no result, the
    driver prints to the error stream a diagnostic that names the place,
    prints nothing to the standard stream, and returns 2; every run that
    gets through the rendering returns 0; and a run that returns at all
    returns 0 or 2, where 2 comes from the empty search alone. *)
Theorem exit_codes (a : args) :
  (forall data,
     _get_json (urlopen_geocoding
                  (urlencode (geocode_params (place a) (lang a)))) = Ok data ->
     results data = None \/ results data = Some [] ->
     run urlopen_geocoding urlopen_forecast int_of_str fromisoformat a =
       (Ok 2,
        {| stdout := [];
           stderr := [ "Could not find a place named '" +:+ place a
                       +:+ "'. Try a more specific name." ] |}))
  /\ (forall w lat lon tz data hd cur dly,
        geocode urlopen_geocoding (place a) (lang a) = Ok (Some w) ->
        dict_item w "lat" = Ok lat ->
        dict_item w "lon" = Ok lon ->
        dict_item w "tz" = Ok tz ->
        fetch_weather urlopen_forecast lat lon (days a) (unit a) tz = Ok data ->
        header w = Ok hd ->
        format_current int_of_str fromisoformat (current_weather data) (unit a) = Ok cur ->
        format_daily (daily data) (unit a) (days a) = Ok dly ->
        exists out, run urlopen_geocoding urlopen_forecast int_of_str fromisoformat a = (Ok 0, {| stdout := out; stderr := [] |})
                    /\ out !! 1%nat = Some cur /\ out !! 2%nat = Some dly)
  /\ (forall c s, run urlopen_geocoding urlopen_forecast int_of_str fromisoformat a = (Ok c, s) -> c = 0 \/ c = 2)
  /\ (forall s, run urlopen_geocoding urlopen_forecast int_of_str fromisoformat a = (Ok 2, s) -> geocode urlopen_geocoding (place a) (lang a) = Ok None).
Proof.
  split; [|split; [|split]].
  - intros data Hdata Hres.
    by rewrite (run_not_found a (geocode_no_results _ _ _ Hdata Hres)).
  - intros w lat lon tz data hd cur dly Hgeo Hlat Hlon Htz Hfetch Hhd Hcur Hdly.
    eexists. split; [by eapply run_rendered|done].
  - intros c s [(-> & _)|(-> & _)]%run_returns; auto.
  - intros s [(_ & H & _)|(H & _)]%run_returns; [done|discriminate].
Qed.

End Driver.

Lemma exit_codes_witness :
  Sample.run [] (Args "Zzzzqqxx123" 3 "metric" "en")
  = (Ok 2,
     {| stdout := [];
        stderr := [ "Could not find a place named 'Zzzzqqxx123'. Try a more specific name." ] |})
  /\ (exists out,
        Sample.run [Sample.berlin] (Args "Berlin" 3 "metric" "en")
        = (Ok 0, {| stdout := out; stderr := [] |})
        /\ out !! 1%nat
           = Some "Current (2024-05-01 12:00): Overcast, 21.5°C, wind 10.1 km/h").
Proof.
  split.
  - destruct (exit_codes (Sample.geocoding []) Sample.forecast
                Sample.int_of_str Sample.fromisoformat
                (Args "Zzzzqqxx123" 3 "metric" "en")) as (H & _).
    apply (H (GeoData (Some []))); [reflexivity|by right].
  - destruct (exit_codes (Sample.geocoding [Sample.berlin]) Sample.forecast
                Sample.int_of_str Sample.fromisoformat
                (Args "Berlin" 3 "metric" "en")) as (_ & H & _).
    edestruct H as (out & Hrun & Hcur & _);
      [reflexivity|reflexivity|reflexivity|reflexivity|reflexivity
      |reflexivity|reflexivity|reflexivity|].
    exists out. split; [exact Hrun|exact Hcur].
Defined.

(** ** The header line *)

(** C6: [geocode] stores the country under its key even when the search
    result has none, as [None]; the default [''] of [where.get('country',
    '')] is then never used and the header reads [<name>, None].  On a
    dict without the key the same expression does trim down to the name
    alone. *)
Theorem header_keeps_none_for_absent_country
    (name place language : string) (lat lon : pyval) :
  let r : dict :=
    <["name" := PStr name]> (<["latitude" := lat]> (<["longitude" := lon]> ∅)) in
  (exists w,
     geocode (Sample.geocoding [r]) place language = Ok (Some w)
     /\ w !! "country" = Some PNone
     /\ header w
        = Ok (py_strip is_comma (py_strip is_space (name +:+ ", None")))
     /\ header (delete "country" w)
        = Ok (py_strip is_comma (py_strip is_space (name +:+ ", "))))
  /\ Sample.berlin_no_country !! "country" = None
  /\ Sample.run [Sample.berlin_no_country] (Args "Berlin" 3 "metric" "en")
     = (Ok 0,
        {| stdout :=
             [ "Berlin, None  (lat 52.52, lon 13.41)";
               "Current (2024-05-01 12:00): Overcast, 21.5°C, wind 10.1 km/h";
               py_join newline
                 [ "Forecast:";
                   "  2024-05-01  min 10.0°C / max 20.0°C  (rain prob 5%)";
                   "  2024-05-02  min 11.0°C / max 21.0°C";
                   "  2024-05-03  min 12.0°C / max 22.0°C" ] ];
           stderr := [] |})
  /\ header (<["name" := PStr "Berlin"]> ∅) = Ok "Berlin".
Proof.
  intros r. split.
  - eexists. split; [reflexivity|]. split; [reflexivity|].
    split; reflexivity.
  - split; [reflexivity|]. split; by vm_compute.
Qed.

(** ** Absent blocks *)

(** C8: when the current-conditions record is absent, be it [None] or an
    empty dict, [format_current] returns exactly the placeholder line
    "Current: (no data)"; when the daily block is absent, [format_daily]
    returns exactly "Forecast: (no data)".  Both return, whatever the unit
    and the day count. *)
Theorem absent_blocks_give_placeholders
    (int_of_str : string -> option Z) (fromisoformat : string -> option datetime)
    (unit : string) (days : Z) :
  format_current int_of_str fromisoformat None unit = Ok "Current: (no data)"
  /\ format_current int_of_str fromisoformat (Some ∅) unit
     = Ok "Current: (no data)"
  /\ format_daily None unit days = Ok "Forecast: (no data)"
  /\ format_daily (Some ∅) unit days = Ok "Forecast: (no data)".
Proof. repeat split. Qed.

(** ** The observation time *)

Lemma digit_value_digit (d : Z) : digit_value (digit d) = Some (d mod 10).
Proof.
  unfold digit. pose proof (Z.mod_pos_bound d 10 ltac:(lia)) as Hr.
  revert Hr. generalize (d mod 10). intros r Hr.
  assert (r = 0 \/ r = 1 \/ r = 2 \/ r = 3 \/ r = 4 \/ r = 5 \/ r = 6
          \/ r = 7 \/ r = 8 \/ r = 9) as Hcases by lia.
  destruct_or!; subst r; reflexivity.
Qed.

Lemma pretty_N_char_digit (n : N) :
  pretty_N_char (n `mod` 10)%N = digit (Z.of_N n).
Proof.
  unfold digit.
  replace (Z.of_N n mod 10) with (Z.of_N (n `mod` 10)%N)
    by (by rewrite N2Z.inj_mod).
  pose proof (N.mod_upper_bound n 10 ltac:(lia)) as Hr.
  revert Hr. generalize (n `mod` 10)%N. intros r Hr.
  assert (r = 0 \/ r = 1 \/ r = 2 \/ r = 3 \/ r = 4 \/ r = 5 \/ r = 6
          \/ r = 7 \/ r = 8 \/ r = 9)%N as Hcases by lia.
  destruct_or!; subst r; reflexivity.
Qed.

(** A year of four digits is written as those four digits. *)
Lemma pretty_four_digits (y : Z) : 1000 <= y <= 9999 -> pretty y = pad4 y.
Proof.
  intros Hy. destruct y as [|p|p]; try lia.
  change (pretty (Z.pos p)) with (pretty (N.pos p)).
  unfold pretty, pretty_N. destruct (decide (N.pos p = 0%N)) as [Hz|_]; [lia|].
  set (n := N.pos p) in *.
  assert (Z.of_N n = Z.pos p) as Hn by done.
  assert (1000 <= n <= 9999)%N as Hrange by lia.
  rewrite pretty_N_go_step by lia.
  rewrite pretty_N_go_step by (apply N.div_str_pos; lia).
  rewrite pretty_N_go_step
    by (apply N.div_str_pos; split; [lia|];
        apply N.div_le_lower_bound; lia).
  rewrite pretty_N_go_step
    by (apply N.div_str_pos; split; [lia|];
        repeat (apply N.div_le_lower_bound; [lia|]); lia).
  replace (N.div (N.div (N.div (N.div n 10) 10) 10) 10) with 0%N.
  2: { symmetry. apply N.div_small.
       repeat (apply N.Div0.div_lt_upper_bound). lia. }
  rewrite pretty_N_go_0, !pretty_N_char_digit.
  unfold pad4, pad2. rewrite !N2Z.inj_div, Hn.
  rewrite !Z.div_div by lia. reflexivity.
Qed.

Lemma strftime_chars (dt : datetime) :
  1000 <= year dt <= 9999 ->
  strftime dt =
    String (digit (year dt / 1000)) (String (digit (year dt / 100))
    (String (digit (year dt / 10)) (String (digit (year dt))
    (String "-" (String (digit (month dt / 10)) (String (digit (month dt))
    (String "-" (String (digit (day dt / 10)) (String (digit (day dt))
    (String " " (String (digit (hour dt / 10)) (String (digit (hour dt))
    (String ":" (String (digit (minute dt / 10)) (String (digit (minute dt))
    EmptyString))))))))))))))).
Proof. intros Hy. unfold strftime. by rewrite pretty_four_digits. Qed.

Lemma read_digits_O (s : string) (acc : Z) : read_digits 0 s acc = Some (acc, s).
Proof. reflexivity. Qed.

Lemma read_digits_digit (k : nat) (d : Z) (rest : string) (acc : Z) :
  read_digits (S k) (String (digit d) rest) acc
  = read_digits k rest (10 * acc + d mod 10).
Proof. cbn [read_digits]. by rewrite digit_value_digit. Qed.

Lemma read_strftime (dt : datetime) :
  1000 <= year dt <= 9999 ->
  read_ymdhm " " (strftime dt) =
    Some (DateTime
            (10 * (10 * (10 * (10 * 0 + (year dt / 1000) mod 10)
                         + (year dt / 100) mod 10)
                   + (year dt / 10) mod 10) + year dt mod 10)
            (10 * (10 * 0 + (month dt / 10) mod 10) + month dt mod 10)
            (10 * (10 * 0 + (day dt / 10) mod 10) + day dt mod 10)
            (10 * (10 * 0 + (hour dt / 10) mod 10) + hour dt mod 10)
            (10 * (10 * 0 + (minute dt / 10) mod 10) + minute dt mod 10)).
Proof.
  intros Hy. rewrite strftime_chars by done. unfold read_ymdhm.
  do 5 (rewrite !read_digits_digit, read_digits_O;
        cbn -[Z.mul Z.add Z.modulo Z.div digit read_digits]).
  reflexivity.
Qed.

Lemma dict_nonempty_lookup {V} (m : gmap string V) (k : string) (v : V) :
  m !! k = Some v -> m <> ∅.
Proof. intros H ->. by rewrite lookup_empty in H. Qed.

Lemma strftime_shape (dt : datetime) :
  1000 <= year dt <= 9999 -> shape_ymdhm (strftime dt) = true.
Proof.
  intros Hy. unfold shape_ymdhm. rewrite read_strftime by done.
  by apply bool_decide_eq_true_2.
Qed.

Lemma read_strftime_valid (dt : datetime) :
  1000 <= year dt <= 9999 ->
  valid_datetime dt -> read_ymdhm " " (strftime dt) = Some dt.
Proof.
  intros Hy (_ & Hm & Hd & Hh & Hmi). rewrite read_strftime by done.
  destruct dt as [y m d h mi]; simpl in *.
  f_equal. f_equal; Z.div_mod_to_equations; lia.
Qed.

(** C9, as amended: for every current-conditions record that is present
    and whose weather code [int] accepts, the time shown between the
    brackets is [strftime] of the parsed time when the source text
    parses, and for a parsed year of four digits that is the form
    [YYYY-MM-DD HH:MM]: sixteen characters that read back as the parsed
    date and time.  Otherwise it is the source value itself: the very
    text when it is text that does not parse, and its [str] when it is
    not text at all.  The timestamp never makes [format_current] raise. *)
Theorem timestamp_formatted_or_raw
    (int_of_str : string -> option Z) (fromisoformat : string -> option datetime)
    (cur : dict) (unit : string) (code : Z) :
  cur <> ∅ ->
  py_int int_of_str (dict_get cur "weathercode" (PInt (-1))) = Ok code ->
  let time_str := dict_get cur "time" PNone in
  exists when rest,
    format_current int_of_str fromisoformat (Some cur) unit
      = Ok ("Current (" +:+ when +:+ "): " +:+ rest)
    /\ (forall s dt,
          time_str = PStr s -> fromisoformat s = Some dt ->
          when = strftime dt
          /\ (1000 <= year dt <= 9999 ->
              String.length when = 16%nat
              /\ shape_ymdhm when = true
              /\ (valid_datetime dt -> read_ymdhm " " when = Some dt)))
    /\ (forall s,
          time_str = PStr s -> fromisoformat s = None -> when = s)
    /\ ((forall s, time_str <> PStr s) -> when = py_str time_str).
Proof.
  intros Hcur Hcode time_str.
  exists (format_when fromisoformat time_str). eexists.
  split; [|split; [|split]].
  - rewrite format_current_present by done. rewrite Hcode. simpl.
    fold time_str. reflexivity.
  - intros s dt -> Hparse. simpl. rewrite Hparse.
    split; [done|]. intros Hy.
    split; [by rewrite strftime_chars|].
    split; [by apply strftime_shape|by apply read_strftime_valid].
  - intros s -> Hparse. simpl. by rewrite Hparse.
  - intros Hnot. destruct time_str as [| | | |s]; try reflexivity.
    by destruct (Hnot s).
Qed.

Lemma timestamp_formatted_or_raw_witness :
  (exists when rest,
     format_current Sample.int_of_str Sample.fromisoformat
       (Some Sample.current) "metric"
     = Ok ("Current (" +:+ when +:+ "): " +:+ rest)
     /\ when = "2024-05-01 12:00"
     /\ String.length when = 16%nat)
  /\ (exists when rest,
        format_current Sample.int_of_str Sample.fromisoformat
          (Some (<["time" := PStr "noon, 1 May"]> Sample.current)) "metric"
        = Ok ("Current (" +:+ when +:+ "): " +:+ rest)
        /\ when = "noon, 1 May")
  /\ (exists when rest,
        format_current Sample.int_of_str Sample.fromisoformat
          (Some (delete "time" Sample.current)) "metric"
        = Ok ("Current (" +:+ when +:+ "): " +:+ rest)
        /\ when = "None").
Proof.
  split; [|split].
  - destruct (timestamp_formatted_or_raw Sample.int_of_str Sample.fromisoformat
                Sample.current "metric" 3)
      as (when & rest & Hline & Hparsed & _).
    { apply (dict_nonempty_lookup _ "weathercode" (PInt 3)). reflexivity. }
    { reflexivity. }
    exists when, rest. split; [exact Hline|].
    destruct (Hparsed "2024-05-01T12:00" (DateTime 2024 5 1 12 0))
      as (Hwhen & Hshape); [reflexivity|reflexivity|].
    destruct Hshape as (Hlen & _); [simpl; lia|].
    split; [|exact Hlen]. rewrite Hwhen. reflexivity.
  - destruct (timestamp_formatted_or_raw Sample.int_of_str Sample.fromisoformat
                (<["time" := PStr "noon, 1 May"]> Sample.current) "metric" 3)
      as (when & rest & Hline & _ & Hraw & _).
    { apply (dict_nonempty_lookup _ "weathercode" (PInt 3)). reflexivity. }
    { reflexivity. }
    exists when, rest. split; [exact Hline|].
    apply Hraw; reflexivity.
  - destruct (timestamp_formatted_or_raw Sample.int_of_str Sample.fromisoformat
                (delete "time" Sample.current) "metric" 3)
      as (when & rest & Hline & _ & _ & Hnone).
    { apply (dict_nonempty_lookup _ "weathercode" (PInt 3)). reflexivity. }
    { reflexivity. }
    exists when, rest. split; [exact Hline|].
    rewrite Hnone; [reflexivity|]. intros s. discriminate.
Defined.

(** C9, as first stated, does not hold.  A timestamp that parses to the
    year 999 is shown as "999-01-01 00:00", fifteen characters and not of
    the form [YYYY-MM-DD HH:MM]; and a record whose weather code is
    [None] makes [format_current] raise [TypeError] before any time is
    shown, parsed or raw. *)
Lemma timestamp_claim_counterexample :
  Sample.fromisoformat "0999-01-01T00:00" = Some (DateTime 999 1 1 0 0)
  /\ format_current Sample.int_of_str Sample.fromisoformat
       (Some (<["time" := PStr "0999-01-01T00:00"]> Sample.current)) "metric"
     = Ok "Current (999-01-01 00:00): Overcast, 21.5°C, wind 10.1 km/h"
  /\ String.length "999-01-01 00:00" = 15%nat
  /\ shape_ymdhm "999-01-01 00:00" = false
  /\ format_current Sample.int_of_str Sample.fromisoformat
       (Some (<["weathercode" := PNone]>
                (<["time" := PStr "yesterday"]> Sample.current))) "metric"
     = Raise TypeError.
Proof. repeat split; by vm_compute. Qed.

(** ** Requested days and rendered days *)

Lemma format_daily_no_days (d : gmap string (list pyval)) (unit : string)
    (days : Z) :
  days <= 0 -> format_daily_lines d unit days = Ok ["Forecast:"].
Proof.
  intros Hdays. rewrite format_daily_lines_ok.
  - unfold py_range. rewrite seqZ_nil; [done|]. unfold py_len. lia.
  - unfold py_len. lia.
  - unfold py_len. lia.
Qed.

Lemma format_daily_of (n : nat) (unit : string) (days : Z) :
  exists rest,
    format_daily_lines (Sample.daily_of n) unit days = Ok ("Forecast:" :: rest)
    /\ length rest = Z.to_nat (Z.min days (Z.of_nat n)).
Proof.
  eexists. split.
  - apply format_daily_lines_ok.
    + change (dict_get (Sample.daily_of n) "time" [])
        with (replicate n (PStr "2024-05-01")).
      change (dict_get (Sample.daily_of n) "temperature_2m_min" [])
        with (replicate n (PInt 10)).
      unfold py_len. rewrite !length_replicate. lia.
    + change (dict_get (Sample.daily_of n) "time" [])
        with (replicate n (PStr "2024-05-01")).
      change (dict_get (Sample.daily_of n) "temperature_2m_max" [])
        with (replicate n (PInt 20)).
      unfold py_len. rewrite !length_replicate. lia.
  - rewrite length_map, py_range_length.
    change (dict_get (Sample.daily_of n) "time" [])
      with (replicate n (PStr "2024-05-01")).
    unfold py_len. by rewrite length_replicate.
Qed.

(** C10: the display loop of [format_daily] is bounded by the day count as
    given, the request by its clamp.  For every day count at or below 0
    and every daily block that is present, [format_daily] renders the
    header line alone while the request of the same run asks for 1
    forecast day.  For every day count outside 1..16 the bound of the
    loop and the requested number differ, and a daily block that is long
    enough gets more than 16 day lines for a day count above 16. *)
Theorem display_bound_unclamped (days : Z) :
  (days <= 0 ->
   forecast_days days = 1
   /\ (forall d unit,
         d <> ∅ ->
         format_daily_lines d unit days = Ok ["Forecast:"]
         /\ format_daily (Some d) unit days = Ok "Forecast:")
   /\ (forall geo fc ios iso place unit lang s,
         run geo fc ios iso (Args place days unit lang) = (Ok 0, s) ->
         exists lat lon tz data,
           let query := urlencode (forecast_params lat lon days unit tz) in
           _get_json (fc query) = Ok data
           /\ (list_to_map query : gmap string string) !! "forecast_days"
              = Some "1"
           /\ (stdout s !! 2%nat = Some "Forecast:"
               \/ stdout s !! 2%nat = Some "Forecast: (no data)")))
  /\ (days < 1 \/ 16 < days -> forecast_days days <> days)
  /\ (16 < days ->
      forecast_days days = 16
      /\ forall (n : nat) unit,
           16 < Z.of_nat n ->
           exists rest,
             format_daily_lines (Sample.daily_of n) unit days
               = Ok ("Forecast:" :: rest)
             /\ Z.of_nat (length rest) = Z.min days (Z.of_nat n)
             /\ forecast_days days < Z.of_nat (length rest)).
Proof.
  split; [|split].
  - intros Hdays.
    assert (forecast_days days = 1) as Hone by (unfold forecast_days; lia).
    split; [done|]. split.
    + intros d unit Hd. rewrite format_daily_present by done.
      by rewrite format_daily_no_days.
    + intros geo fc ios iso pl unit lg s Hrun.
      apply run_returns in Hrun as [(? & _)|(_ & Hrun)]; [done|].
      destruct Hrun as (w & lat & lon & tz & data & hd & cur & dly & _ & _ & _
                        & _ & Hfetch & _ & _ & Hdly & ->).
      simpl in Hfetch, Hdly.
      exists lat, lon, tz, data. split; [exact Hfetch|]. split.
      * unfold forecast_params. rewrite Hone. reflexivity.
      * simpl. destruct (daily data) as [d|]; [|right; by injection Hdly as <-].
        destruct (decide (d = ∅)) as [->|Hd]; [right; by injection Hdly as <-|].
        rewrite format_daily_present, format_daily_no_days in Hdly by done.
        left. by injection Hdly as <-.
  - unfold forecast_days. lia.
  - intros Hdays.
    assert (forecast_days days = 16) as Hmax by (unfold forecast_days; lia).
    split; [done|]. intros n unit Hn.
    destruct (format_daily_of n unit days) as (rest & Hrest & Hlen).
    exists rest. split; [done|]. lia.
Qed.

Lemma display_bound_unclamped_witness :
  (forecast_days 0 = 1
   /\ format_daily (Some Sample.daily) "metric" 0 = Ok "Forecast:")
  /\ forecast_days (-4) <> -4
  /\ (forecast_days 18 = 16
      /\ exists rest,
           format_daily_lines (Sample.daily_of 20) "metric" 18
             = Ok ("Forecast:" :: rest)
           /\ Z.of_nat (length rest) = 18).
Proof.
  split; [|split].
  - destruct (display_bound_unclamped 0) as (Hlow & _).
    destruct Hlow as (Hone & Hfmt & _); [lia|].
    split; [exact Hone|].
    apply (Hfmt Sample.daily "metric").
    apply (dict_nonempty_lookup _ "time"
             [PStr "2024-05-01"; PStr "2024-05-02"; PStr "2024-05-03"]).
    reflexivity.
  - destruct (display_bound_unclamped (-4)) as (_ & Hout & _).
    apply Hout. lia.
  - destruct (display_bound_unclamped 18) as (_ & _ & Hhigh).
    destruct Hhigh as (Hmax & Hlong); [lia|].
    split; [exact Hmax|].
    destruct (Hlong 20%nat "metric") as (rest & Hrest & Hlen & _); [lia|].
    exists rest. split; [exact Hrest|exact Hlen].
Defined.

(** * Further properties of the program *)

(** ** The transport wrapper *)

(** X1: [_get_json] gives the decoded body exactly for a response with
    status 200 whose body decodes.  Everything else is raised as one
    [RuntimeError] whose message begins with "Network/API error: ": the
    [HTTPError] of [urlopen] for a status outside 200..299 with its own
    text "HTTP Error <status>: <reason>", a response with another status
    from 200 to 299 as "HTTP <status>" whatever its body, a body that
    does not decode and a failed transport with their message. *)
Theorem get_json_outcomes {A} (reply : http_reply A) :
  (forall data, _get_json reply = Ok data <-> reply = Reply 200 (inl data))
  /\ (forall e,
        _get_json reply = Raise e ->
        exists msg, e = RuntimeError ("Network/API error: " +:+ msg))
  /\ (forall status reason,
        reply = HTTPError status reason ->
        _get_json reply
        = Raise (RuntimeError ("Network/API error: HTTP Error "
                               +:+ pretty status +:+ ": " +:+ reason)))
  /\ (forall status body,
        reply = Reply status body -> 200 <= status < 300 -> status <> 200 ->
        _get_json reply
        = Raise (RuntimeError ("Network/API error: HTTP " +:+ pretty status)))
  /\ (forall msg,
        reply = Reply 200 (inr msg) \/ reply = Failure msg ->
        _get_json reply = Raise (RuntimeError ("Network/API error: " +:+ msg))).
Proof.
  split; [|split; [|split; [|split]]].
  - intros data. destruct reply as [status [d|msg]|status reason|msg]; simpl.
    + destruct (Z.eqb_spec status 200) as [->|Hne]; simpl.
      * split; intros [= ->]; done.
      * split; [discriminate|]. intros [= ? ?]. done.
    + destruct (Z.eqb_spec status 200); simpl; split; discriminate.
    + split; discriminate.
    + split; discriminate.
  - intros e. unfold _get_json, network_error.
    destruct reply as [status [d|msg]|status reason|msg];
      [destruct (Z.eqb_spec status 200); simpl
      |destruct (Z.eqb_spec status 200); simpl| |];
      intros [= <-]; by eexists.
  - by intros status reason ->.
  - intros status body -> _ Hne. simpl.
    by destruct (Z.eqb_spec status 200).
  - by intros msg [-> | ->].
Qed.

Lemma get_json_outcomes_witness :
  _get_json (Reply 200 (inl (GeoData None))) = Ok (GeoData None)
  /\ _get_json (@HTTPError geo_data 503 "Service Unavailable")
     = Raise (RuntimeError
                "Network/API error: HTTP Error 503: Service Unavailable")
  /\ _get_json (Reply 204 (inl (GeoData None)))
     = Raise (RuntimeError "Network/API error: HTTP 204")
  /\ _get_json (@Failure geo_data "timed out")
     = Raise (RuntimeError "Network/API error: timed out").
Proof.
  split; [|split; [|split]].
  - destruct (get_json_outcomes (Reply 200 (inl (GeoData None)))) as (H & _).
    apply H. reflexivity.
  - destruct (get_json_outcomes (@HTTPError geo_data 503 "Service Unavailable"))
      as (_ & _ & H & _).
    apply (H 503 "Service Unavailable"). reflexivity.
  - destruct (get_json_outcomes (Reply 204 (inl (GeoData None))))
      as (_ & _ & _ & H & _).
    apply (H 204 (inl (GeoData None))); [reflexivity|lia|lia].
  - destruct (get_json_outcomes (@Failure geo_data "timed out"))
      as (_ & _ & _ & _ & H).
    apply (H "timed out"). by right.
Defined.

(** ** The geocoding client *)

(** X2: [geocode] answers [None] exactly when the service replies with status
    200 and a body whose result list is missing or empty.  A network error
    is therefore never mistaken for a place that does not exist. *)
Theorem geocode_not_found_iff
    (urlopen_geocoding : list (string * string) -> http_reply geo_data)
    (place language : string) :
  geocode urlopen_geocoding place language = Ok None
  <-> exists data,
        urlopen_geocoding (urlencode (geocode_params place language))
          = Reply 200 (inl data)
        /\ (results data = None \/ results data = Some []).
Proof.
  unfold geocode.
  destruct (urlopen_geocoding _) as [status [data|msg]|status reason|msg]
    eqn:Hreply; simpl.
  - destruct (Z.eqb_spec status 200) as [->|Hne]; simpl.
    + destruct (results data) as [[|r rest]|] eqn:Hres.
      * split; [|done]. intros _. exists data. by split; [|right].
      * split.
        { unfold dict_item.
          destruct (r !! "latitude"); simpl; [|discriminate].
          destruct (r !! "longitude"); simpl; discriminate. }
        { intros (data' & [= <-] & [H|H]); rewrite Hres in H; discriminate. }
      * split; [|done]. intros _. exists data. by split; [|left].
    + split; [discriminate|]. intros (data' & [= ? ?] & _). done.
  - destruct (Z.eqb_spec status 200); simpl;
      (split; [discriminate|]; intros (data' & [=] & _)).
  - split; [discriminate|]. intros (data' & [=] & _).
  - split; [discriminate|]. intros (data' & [=] & _).
Qed.

Lemma geocode_not_found_iff_witness :
  geocode (Sample.geocoding []) "Zzzzqqxx123" "en" = Ok None.
Proof.
  apply (geocode_not_found_iff (Sample.geocoding []) "Zzzzqqxx123" "en").
  exists (GeoData (Some [])). split; [reflexivity|by right].
Defined.

(** X3: Only the first result counts, and of it only five fields: two replies
    whose first results agree on [name], [country], [latitude],
    [longitude] and [timezone] give the same outcome, whatever else the
    first result holds and whatever results follow it. *)
Theorem geocode_first_result_only
    (geo1 geo2 : list (string * string) -> http_reply geo_data)
    (place language : string) (r1 r2 : dict) (rest1 rest2 : list dict) :
  geo1 (urlencode (geocode_params place language))
    = Reply 200 (inl (GeoData (Some (r1 :: rest1)))) ->
  geo2 (urlencode (geocode_params place language))
    = Reply 200 (inl (GeoData (Some (r2 :: rest2)))) ->
  (forall k, k ∈ ["name"; "country"; "latitude"; "longitude"; "timezone"] ->
             r1 !! k = r2 !! k) ->
  geocode geo1 place language = geocode geo2 place language.
Proof.
  intros H1 H2 Hsame. unfold geocode, dict_item, dict_get.
  rewrite H1, H2. simpl.
  rewrite (Hsame "name"), (Hsame "country"), (Hsame "latitude"),
    (Hsame "longitude"), (Hsame "timezone"); [done|..];
    repeat (apply list_elem_of_here || apply list_elem_of_further).
Qed.

Lemma geocode_first_result_only_witness :
  geocode (Sample.geocoding
             [<["population" := PInt 3645000]> Sample.berlin;
              Sample.berlin_no_country]) "Berlin" "en"
  = geocode (Sample.geocoding [Sample.berlin]) "Berlin" "en".
Proof.
  apply (geocode_first_result_only
           (Sample.geocoding [<["population" := PInt 3645000]> Sample.berlin;
                              Sample.berlin_no_country])
           (Sample.geocoding [Sample.berlin]) "Berlin" "en"
           (<["population" := PInt 3645000]> Sample.berlin) Sample.berlin
           [Sample.berlin_no_country] []); [reflexivity|reflexivity|].
  intros k Hk. apply lookup_insert_ne. intros <-.
  revert Hk. apply (bool_decide_unpack _). by vm_compute.
Defined.

(** X4: The coordinates are read without a default: a first result without
    [latitude] raises [KeyError] for it, and one with [latitude] but
    without [longitude] raises [KeyError] for that. *)
Theorem geocode_missing_coordinates
    (urlopen_geocoding : list (string * string) -> http_reply geo_data)
    (place language : string) (r : dict) (rest : list dict) :
  urlopen_geocoding (urlencode (geocode_params place language))
    = Reply 200 (inl (GeoData (Some (r :: rest)))) ->
  (r !! "latitude" = None ->
   geocode urlopen_geocoding place language = Raise (KeyError "latitude"))
  /\ (is_Some (r !! "latitude") -> r !! "longitude" = None ->
      geocode urlopen_geocoding place language = Raise (KeyError "longitude")).
Proof.
  intros Hreply. unfold geocode, dict_item. rewrite Hreply. simpl. split.
  - by intros ->.
  - intros [lat ->] ->. done.
Qed.

Lemma geocode_missing_coordinates_witness :
  geocode (Sample.geocoding [delete "latitude" Sample.berlin]) "Berlin" "en"
  = Raise (KeyError "latitude")
  /\ geocode (Sample.geocoding [delete "longitude" Sample.berlin]) "Berlin" "en"
     = Raise (KeyError "longitude").
Proof.
  split.
  - destruct (geocode_missing_coordinates
                (Sample.geocoding [delete "latitude" Sample.berlin])
                "Berlin" "en" (delete "latitude" Sample.berlin) [] eq_refl)
      as (H & _).
    apply H. reflexivity.
  - destruct (geocode_missing_coordinates
                (Sample.geocoding [delete "longitude" Sample.berlin])
                "Berlin" "en" (delete "longitude" Sample.berlin) [] eq_refl)
      as (_ & H).
    apply H; [by eexists|reflexivity].
Defined.

(** X5: A location, once found, has exactly the keys [name], [country], [lat],
    [lon] and [tz]: the later reads of [where] in [main] cannot raise
    [KeyError].  A missing name or country is stored as [None], a missing
    time zone as "auto"; the coordinates are those of the first result. *)
Theorem geocode_result_keys
    (urlopen_geocoding : list (string * string) -> http_reply geo_data)
    (place language : string) (w : dict) :
  geocode urlopen_geocoding place language = Ok (Some w) ->
  dom w = ({["name"; "country"; "lat"; "lon"; "tz"]} : gset string)
  /\ exists r rest,
       urlopen_geocoding (urlencode (geocode_params place language))
         = Reply 200 (inl (GeoData (Some (r :: rest))))
       /\ w !! "name" = Some (default PNone (r !! "name"))
       /\ w !! "country" = Some (default PNone (r !! "country"))
       /\ w !! "lat" = r !! "latitude"
       /\ w !! "lon" = r !! "longitude"
       /\ w !! "tz" = Some (default (PStr "auto") (r !! "timezone")).
Proof.
  intros Hgeo. unfold geocode in Hgeo.
  destruct (urlopen_geocoding _) as [status [data|msg]|status reason|msg]
    eqn:Hreply; simpl in Hgeo;
    [|by destruct (Z.eqb_spec status 200)|discriminate|discriminate].
  destruct (Z.eqb_spec status 200) as [->|]; simpl in Hgeo; [|discriminate].
  destruct data as [[[|r rest]|]]; simpl in Hgeo; try discriminate.
  unfold dict_item in Hgeo.
  destruct (r !! "latitude") as [lat|] eqn:Hlat; simpl in Hgeo; [|discriminate].
  destruct (r !! "longitude") as [lon|] eqn:Hlon; simpl in Hgeo; [|discriminate].
  injection Hgeo as <-. split.
  - rewrite !dom_insert_L, dom_empty_L. set_solver.
  - exists r, rest. by repeat split.
Qed.

Lemma geocode_result_keys_witness :
  exists w,
    geocode (Sample.geocoding [Sample.berlin_no_country]) "Berlin" "en"
      = Ok (Some w)
    /\ dom w = ({["name"; "country"; "lat"; "lon"; "tz"]} : gset string).
Proof.
  eexists. split; [reflexivity|].
  apply (geocode_result_keys (Sample.geocoding [Sample.berlin_no_country])
           "Berlin" "en" _ eq_refl).
Defined.

(** ** The forecast client *)

(** X6: The time zone sent to the forecast service is never empty: a time zone
    that is [None] or the empty text is replaced by "auto", any other text
    is sent as it is. *)
Theorem forecast_timezone_never_empty
    (lat lon tz : pyval) (days : Z) (unit : string) :
  exists v,
    (list_to_map (forecast_params lat lon days unit tz) : dict) !! "timezone"
      = Some v
    /\ py_truthy v = true
    /\ (tz = PNone \/ tz = PStr "" -> v = PStr "auto")
    /\ (forall s, tz = PStr s -> s <> "" -> v = tz).
Proof.
  exists (py_or tz (PStr "auto")). split; [reflexivity|].
  unfold py_or. split; [|split].
  - by destruct (py_truthy tz) eqn:Htz.
  - by intros [-> | ->].
  - intros s -> Hs. simpl. destruct (String.eqb_spec s ""); done.
Qed.

Lemma forecast_timezone_never_empty_witness :
  (exists v,
     (list_to_map (forecast_params PNone PNone 3 "metric" (PStr "")) : dict)
       !! "timezone" = Some v
     /\ v = PStr "auto")
  /\ (exists v,
        (list_to_map
           (forecast_params PNone PNone 3 "metric" (PStr "Europe/Berlin")) : dict)
          !! "timezone" = Some v
        /\ v = PStr "Europe/Berlin").
Proof.
  split.
  - destruct (forecast_timezone_never_empty PNone PNone (PStr "") 3 "metric")
      as (v & Hv & _ & Hauto & _).
    exists v. split; [exact Hv|]. apply Hauto. by right.
  - destruct (forecast_timezone_never_empty PNone PNone (PStr "Europe/Berlin")
                3 "metric") as (v & Hv & _ & _ & Hkeep).
    exists v. split; [exact Hv|]. apply (Hkeep "Europe/Berlin"); [reflexivity|].
    discriminate.
Defined.

(** ** What a run prints *)

Section Runs.

Variable urlopen_geocoding : list (string * string) -> http_reply geo_data.
Variable urlopen_forecast : list (string * string) -> http_reply forecast_data.
Variable int_of_str : string -> option Z.
Variable fromisoformat : string -> option datetime.

(** X7: A network error of either service ends the run with that error and
    with nothing printed on either stream: the header is printed only once
    the forecast has arrived.  In particular a geocoding request that
    [urlopen] refuses with an [HTTPError], or answers with a status from
    201 to 299, is raised, not reported as an unknown place. *)
Theorem network_error_prints_nothing (a : args) :
  (forall e,
     geocode urlopen_geocoding (place a) (lang a) = Raise e ->
     run urlopen_geocoding urlopen_forecast int_of_str fromisoformat a
     = (Raise e, {| stdout := []; stderr := [] |}))
  /\ (forall w lat lon tz e,
        geocode urlopen_geocoding (place a) (lang a) = Ok (Some w) ->
        w !! "lat" = Some lat -> w !! "lon" = Some lon -> w !! "tz" = Some tz ->
        fetch_weather urlopen_forecast lat lon (days a) (unit a) tz = Raise e ->
        run urlopen_geocoding urlopen_forecast int_of_str fromisoformat a
        = (Raise e, {| stdout := []; stderr := [] |}))
  /\ (forall status reason,
        urlopen_geocoding (urlencode (geocode_params (place a) (lang a)))
          = HTTPError status reason ->
        run urlopen_geocoding urlopen_forecast int_of_str fromisoformat a
        = (Raise (RuntimeError ("Network/API error: HTTP Error "
                                +:+ pretty status +:+ ": " +:+ reason)),
           {| stdout := []; stderr := [] |}))
  /\ (forall status body,
        urlopen_geocoding (urlencode (geocode_params (place a) (lang a)))
          = Reply status body ->
        200 <= status < 300 -> status <> 200 ->
        run urlopen_geocoding urlopen_forecast int_of_str fromisoformat a
        = (Raise (RuntimeError ("Network/API error: HTTP " +:+ pretty status)),
           {| stdout := []; stderr := [] |})).
Proof.
  assert (forall e,
            geocode urlopen_geocoding (place a) (lang a) = Raise e ->
            run urlopen_geocoding urlopen_forecast int_of_str fromisoformat a
            = (Raise e, {| stdout := []; stderr := [] |})) as Hgeo.
  { intros e H. unfold run, main, io_bind, lift. by rewrite H. }
  split; [exact Hgeo|split; [|split]].
  - intros w lat lon tz e Hw Hlat Hlon Htz Hfetch.
    destruct (geocode_found_keys _ _ _ _ Hw) as (Hne & _).
    assert (dict_item w "lat" = Ok lat) as Hlat'
      by (unfold dict_item; by rewrite Hlat).
    assert (dict_item w "lon" = Ok lon) as Hlon'
      by (unfold dict_item; by rewrite Hlon).
    assert (dict_item w "tz" = Ok tz) as Htz'
      by (unfold dict_item; by rewrite Htz).
    unfold run, main, io_bind, lift. rewrite Hw.
    unfold dict_truthy. rewrite bool_decide_eq_false_2 by done. simpl.
    rewrite Hlat', Hlon', Htz'. by rewrite Hfetch.
  - intros status reason Hreply. apply Hgeo.
    unfold geocode. by rewrite Hreply.
  - intros status body Hreply _ Hne. apply Hgeo.
    unfold geocode. rewrite Hreply. simpl.
    by destruct (Z.eqb_spec status 200).
Qed.

(** X8: A formatter that raises does so after the lines before it are out: a
    failure of [format_current] leaves the header line on the standard
    stream, a failure of [format_daily] the header line and the current
    line. *)
Theorem formatter_failure_keeps_printed_lines
    (a : args) (w : dict) (lat lon tz : pyval) (data : forecast_data)
    (hd : string) :
  geocode urlopen_geocoding (place a) (lang a) = Ok (Some w) ->
  w !! "lat" = Some lat -> w !! "lon" = Some lon -> w !! "tz" = Some tz ->
  fetch_weather urlopen_forecast lat lon (days a) (unit a) tz = Ok data ->
  header w = Ok hd ->
  let first :=
    hd +:+ "  (lat " +:+ py_str lat +:+ ", lon " +:+ py_str lon +:+ ")" in
  (forall e,
     format_current int_of_str fromisoformat (current_weather data) (unit a)
       = Raise e ->
     run urlopen_geocoding urlopen_forecast int_of_str fromisoformat a
     = (Raise e, {| stdout := [first]; stderr := [] |}))
  /\ (forall cur e,
        format_current int_of_str fromisoformat (current_weather data) (unit a)
          = Ok cur ->
        format_daily (daily data) (unit a) (days a) = Raise e ->
        run urlopen_geocoding urlopen_forecast int_of_str fromisoformat a
        = (Raise e, {| stdout := [first; cur]; stderr := [] |})).
Proof.
  intros Hw Hlat Hlon Htz Hfetch Hhd first.
  destruct (geocode_found_keys _ _ _ _ Hw) as (Hne & _).
  assert (dict_item w "lat" = Ok lat) as Hlat'
    by (unfold dict_item; by rewrite Hlat).
  assert (dict_item w "lon" = Ok lon) as Hlon'
    by (unfold dict_item; by rewrite Hlon).
  assert (dict_item w "tz" = Ok tz) as Htz'
    by (unfold dict_item; by rewrite Htz).
  split.
  - intros e Hcur. unfold run, main, io_bind, lift. rewrite Hw.
    unfold dict_truthy. rewrite bool_decide_eq_false_2 by done. simpl.
    rewrite Hlat', Hlon', Htz', Hfetch, Hhd. simpl. by rewrite Hcur.
  - intros cur e Hcur Hdly. unfold run, main, io_bind, lift. rewrite Hw.
    unfold dict_truthy. rewrite bool_decide_eq_false_2 by done. simpl.
    rewrite Hlat', Hlon', Htz', Hfetch, Hhd. simpl. by rewrite Hcur, Hdly.
Qed.

Local Ltac stage_closed :=
  repeat split; simpl; intros; try done; try lia; try discriminate.

(** X9: [main], called with parsed arguments, never prints to both
    streams.  Either it returns 2 after a single [print] of the
    diagnostic to the error stream, or it prints nothing to the error
    stream and calls [print] for the standard stream at most three times,
    three times exactly when it returns 0. *)
Theorem streams_exclusive (a : args) :
  let out := run urlopen_geocoding urlopen_forecast int_of_str fromisoformat a in
  (out.1 = Ok 2 /\ stdout out.2 = []
   /\ stderr out.2 = [not_found_message (place a)])
  \/ (out.1 <> Ok 2 /\ stderr out.2 = []
      /\ (length (stdout out.2) <= 3)%nat
      /\ (out.1 = Ok 0 <-> length (stdout out.2) = 3%nat)).
Proof.
  unfold run, main, io_bind, lift.
  destruct (geocode urlopen_geocoding (place a) (lang a)) as [[w|]|e] eqn:Hgeo.
  - destruct (geocode_found_keys _ _ _ _ Hgeo) as (Hne & _).
    unfold dict_truthy. rewrite bool_decide_eq_false_2 by done. simpl.
    right.
    destruct (dict_item w "lat") as [lat|]; [|stage_closed].
    destruct (dict_item w "lon") as [lon|]; [|stage_closed].
    destruct (dict_item w "tz") as [tz|]; [|stage_closed].
    destruct (fetch_weather _ _ _ _ _ _) as [data|]; [|stage_closed].
    destruct (header w) as [hd|]; [|stage_closed]. simpl.
    destruct (format_current _ _ _ _) as [cur|]; [|stage_closed].
    destruct (format_daily _ _ _) as [dly|]; stage_closed.
  - left. by repeat split.
  - right. stage_closed.
Qed.

End Runs.

Lemma network_error_prints_nothing_witness :
  run (fun _ => HTTPError 503 "Service Unavailable") Sample.forecast
      Sample.int_of_str Sample.fromisoformat (Args "Berlin" 3 "metric" "en")
  = (Raise (RuntimeError
              "Network/API error: HTTP Error 503: Service Unavailable"),
     {| stdout := []; stderr := [] |})
  /\ run (fun _ => Reply 204 (inr "Expecting value")) Sample.forecast
         Sample.int_of_str Sample.fromisoformat (Args "Berlin" 3 "metric" "en")
     = (Raise (RuntimeError "Network/API error: HTTP 204"),
        {| stdout := []; stderr := [] |})
  /\ run (Sample.geocoding [Sample.berlin]) (fun _ => Failure "timed out")
         Sample.int_of_str Sample.fromisoformat (Args "Berlin" 3 "metric" "en")
     = (Raise (RuntimeError "Network/API error: timed out"),
        {| stdout := []; stderr := [] |}).
Proof.
  split; [|split].
  - destruct (network_error_prints_nothing
                (fun _ => HTTPError 503 "Service Unavailable") Sample.forecast
                Sample.int_of_str Sample.fromisoformat
                (Args "Berlin" 3 "metric" "en")) as (_ & _ & H & _).
    apply (H 503 "Service Unavailable"). reflexivity.
  - destruct (network_error_prints_nothing
                (fun _ => Reply 204 (inr "Expecting value")) Sample.forecast
                Sample.int_of_str Sample.fromisoformat
                (Args "Berlin" 3 "metric" "en")) as (_ & _ & _ & H).
    apply (H 204 (inr "Expecting value")); [reflexivity|lia|lia].
  - destruct (network_error_prints_nothing
                (Sample.geocoding [Sample.berlin]) (fun _ => Failure "timed out")
                Sample.int_of_str Sample.fromisoformat
                (Args "Berlin" 3 "metric" "en")) as (_ & H & _).
    eapply H; reflexivity.
Defined.

Lemma formatter_failure_keeps_printed_lines_witness :
  run (Sample.geocoding [Sample.berlin])
      (fun _ => Reply 200 (inl (ForecastData
                                  (Some (<["weathercode" := PNone]> Sample.current))
                                  (Some Sample.daily))))
      Sample.int_of_str Sample.fromisoformat (Args "Berlin" 3 "metric" "en")
  = (Raise TypeError,
     {| stdout := ["Berlin, Germany  (lat 52.52, lon 13.41)"]; stderr := [] |})
  /\ run (Sample.geocoding [Sample.berlin])
         (fun _ => Reply 200 (inl (ForecastData (Some Sample.current)
                                     (Some Sample.daily_short_min))))
         Sample.int_of_str Sample.fromisoformat (Args "Berlin" 3 "metric" "en")
     = (Raise IndexError,
        {| stdout := [ "Berlin, Germany  (lat 52.52, lon 13.41)";
                       "Current (2024-05-01 12:00): Overcast, 21.5°C, wind 10.1 km/h" ];
           stderr := [] |}).
Proof.
  split.
  - edestruct (formatter_failure_keeps_printed_lines
                 (Sample.geocoding [Sample.berlin])
                 (fun _ => Reply 200 (inl (ForecastData
                                  (Some (<["weathercode" := PNone]> Sample.current))
                                  (Some Sample.daily))))
                 Sample.int_of_str Sample.fromisoformat
                 (Args "Berlin" 3 "metric" "en")) as (H & _);
      [reflexivity|reflexivity|reflexivity|reflexivity|reflexivity|reflexivity|].
    apply H. reflexivity.
  - edestruct (formatter_failure_keeps_printed_lines
                 (Sample.geocoding [Sample.berlin])
                 (fun _ => Reply 200 (inl (ForecastData (Some Sample.current)
                                     (Some Sample.daily_short_min))))
                 Sample.int_of_str Sample.fromisoformat
                 (Args "Berlin" 3 "metric" "en")) as (_ & H);
      [reflexivity|reflexivity|reflexivity|reflexivity|reflexivity|reflexivity|].
    apply H; reflexivity.
Defined.

(** ** The current-conditions line *)

(** X10: A record that is present but holds none of the four fields still gives
    a line: the code defaults to -1 and is described as "WMO -1", the time,
    the temperature and the wind are rendered as [None]. *)
Theorem format_current_missing_fields
    (int_of_str : string -> option Z) (fromisoformat : string -> option datetime)
    (cur : dict) (unit : string) :
  cur <> ∅ ->
  cur !! "weathercode" = None -> cur !! "temperature" = None ->
  cur !! "windspeed" = None -> cur !! "time" = None ->
  format_current int_of_str fromisoformat (Some cur) unit
  = Ok ("Current (None): WMO -1, None" +:+ u_temp unit
        +:+ ", wind None " +:+ u_wind unit).
Proof.
  intros Hne Hcode Htemp Hwind Htime.
  rewrite format_current_present by done.
  unfold dict_get. rewrite Hcode, Htemp, Hwind, Htime. reflexivity.
Qed.

Lemma format_current_missing_fields_witness :
  format_current Sample.int_of_str Sample.fromisoformat
    (Some {["is_day" := PInt 1]}) "imperial"
  = Ok "Current (None): WMO -1, None°F, wind None mph".
Proof.
  apply (format_current_missing_fields Sample.int_of_str Sample.fromisoformat
           {["is_day" := PInt 1]} "imperial"); try reflexivity.
  apply (dict_nonempty_lookup _ "is_day" (PInt 1)). reflexivity.
Defined.

(** X11: [format_current] raises only through [int(weathercode)]: it raises [e]
    exactly when the record is present and that conversion raises [e].
    A weather code that is [None] raises [TypeError], text that is not a
    number raises [ValueError]; a missing code, an integer or a boolean
    always gives a line. *)
Theorem format_current_raises_iff
    (int_of_str : string -> option Z) (fromisoformat : string -> option datetime)
    (cur : dict) (unit : string) :
  (forall e,
     format_current int_of_str fromisoformat (Some cur) unit = Raise e
     <-> cur <> ∅
         /\ py_int int_of_str (dict_get cur "weathercode" (PInt (-1))) = Raise e)
  /\ (cur !! "weathercode" = Some PNone ->
      format_current int_of_str fromisoformat (Some cur) unit = Raise TypeError)
  /\ (forall s,
        cur !! "weathercode" = Some (PStr s) -> int_of_str s = None ->
        format_current int_of_str fromisoformat (Some cur) unit
        = Raise ValueError)
  /\ (cur !! "weathercode" = None
      \/ (exists z, cur !! "weathercode" = Some (PInt z))
      \/ (exists b, cur !! "weathercode" = Some (PBool b)) ->
      exists line,
        format_current int_of_str fromisoformat (Some cur) unit = Ok line).
Proof.
  assert (forall v, cur !! "weathercode" = Some v -> cur <> ∅) as Hpresent.
  { intros v Hv. by apply (dict_nonempty_lookup _ _ _ Hv). }
  split; [|split; [|split]].
  - intros e. destruct (decide (cur = ∅)) as [->|Hne].
    + rewrite format_current_absent. split; [discriminate|]. by intros [? _].
    + rewrite format_current_present by done.
      destruct (py_int _ _) as [code|e']; simpl.
      * split; [discriminate|]. intros [_ ?]. discriminate.
      * split; [by intros [= ->]|]. by intros [_ [= ->]].
  - intros Hcode. rewrite format_current_present by eauto.
    unfold dict_get. by rewrite Hcode.
  - intros s Hcode Hs. rewrite format_current_present by eauto.
    unfold dict_get. rewrite Hcode. simpl. by rewrite Hs.
  - intros Hcode. destruct (decide (cur = ∅)) as [->|Hne].
    + eexists. apply format_current_absent.
    + rewrite format_current_present by done. unfold dict_get.
      destruct Hcode as [-> | [[z ->] | [b ->]]]; simpl; by eexists.
Qed.

Lemma format_current_raises_iff_witness :
  format_current Sample.int_of_str Sample.fromisoformat
    (Some (<["weathercode" := PNone]> Sample.current)) "metric"
  = Raise TypeError
  /\ format_current Sample.int_of_str Sample.fromisoformat
       (Some (<["weathercode" := PStr "rain"]> Sample.current)) "metric"
     = Raise ValueError
  /\ (exists line,
        format_current Sample.int_of_str Sample.fromisoformat
          (Some (delete "weathercode" Sample.current)) "metric" = Ok line).
Proof.
  split; [|split].
  - destruct (format_current_raises_iff Sample.int_of_str Sample.fromisoformat
                (<["weathercode" := PNone]> Sample.current) "metric")
      as (_ & H & _).
    apply H. reflexivity.
  - destruct (format_current_raises_iff Sample.int_of_str Sample.fromisoformat
                (<["weathercode" := PStr "rain"]> Sample.current) "metric")
      as (_ & _ & H & _).
    apply (H "rain"); reflexivity.
  - destruct (format_current_raises_iff Sample.int_of_str Sample.fromisoformat
                (delete "weathercode" Sample.current) "metric")
      as (_ & _ & _ & H).
    apply H. left. reflexivity.
Defined.

(** ** The daily block, further *)

Lemma format_daily_lines_reach (d : gmap string (list pyval)) (unit : string)
    (days : Z) (lines : list string) :
  format_daily_lines d unit days = Ok lines ->
  Z.min days (py_len (dict_get d "time" []))
  <= Z.min (py_len (dict_get d "temperature_2m_min" []))
           (py_len (dict_get d "temperature_2m_max" [])).
Proof.
  intros Hok.
  destruct (Z.le_gt_cases
              (Z.min days (py_len (dict_get d "time" [])))
              (Z.min (py_len (dict_get d "temperature_2m_min" []))
                     (py_len (dict_get d "temperature_2m_max" []))))
    as [Hle|Hgt]; [done|].
  rewrite format_daily_lines_short in Hok by lia. discriminate.
Qed.

(** X12: On a daily block whose entries are arrays, [format_daily] raises
    nothing but [IndexError], and raises it only when the block is
    present and its minimum or maximum sequence is shorter than
    [min(days, len(dates))]: neither an absent block nor a short or
    missing precipitation sequence nor an element that is [None] can make
    it fail. *)
Theorem format_daily_raises_only_index_error
    (daily : option (gmap string (list pyval))) (unit : string) (days : Z)
    (e : exn) :
  format_daily daily unit days = Raise e ->
  e = IndexError
  /\ exists d,
       daily = Some d
       /\ Z.min (py_len (dict_get d "temperature_2m_min" []))
                (py_len (dict_get d "temperature_2m_max" []))
          < Z.min days (py_len (dict_get d "time" [])).
Proof.
  destruct daily as [d|]; [|discriminate].
  destruct (decide (d = ∅)) as [->|Hne]; [discriminate|].
  rewrite format_daily_present by done.
  destruct (Z.le_gt_cases
              (Z.min days (py_len (dict_get d "time" [])))
              (Z.min (py_len (dict_get d "temperature_2m_min" []))
                     (py_len (dict_get d "temperature_2m_max" []))))
    as [Hle|Hgt].
  - rewrite format_daily_lines_ok by lia. discriminate.
  - rewrite format_daily_lines_short by lia. simpl. intros [= <-].
    split; [done|]. exists d. split; [done|lia].
Qed.

Lemma format_daily_raises_only_index_error_witness :
  IndexError = IndexError
  /\ exists d,
       Some Sample.daily_short_min = Some d
       /\ Z.min (py_len (dict_get d "temperature_2m_min" []))
                (py_len (dict_get d "temperature_2m_max" []))
          < Z.min 3 (py_len (dict_get d "time" [])).
Proof.
  apply (format_daily_raises_only_index_error
           (Some Sample.daily_short_min) "metric" 3 IndexError).
  reflexivity.
Defined.

(** X13: Asking for fewer days gives a prefix: when the block renders for a day
    count, it renders for every smaller one, and the lines of the smaller
    count are the first lines of the larger. *)
Theorem format_daily_fewer_days_prefix
    (d : gmap string (list pyval)) (unit : string) (days1 days2 : Z)
    (lines2 : list string) :
  days1 <= days2 ->
  format_daily_lines d unit days2 = Ok lines2 ->
  exists lines1,
    format_daily_lines d unit days1 = Ok lines1
    /\ lines1 `prefix_of` lines2.
Proof.
  intros Hle Hok2. pose proof (format_daily_lines_reach _ _ _ _ Hok2) as Hreach.
  rewrite format_daily_lines_ok in Hok2 by lia. injection Hok2 as <-.
  eexists. split; [apply format_daily_lines_ok; lia|].
  set (n1 := Z.min days1 _). set (n2 := Z.min days2 _).
  assert (n1 <= n2) as Hn by (unfold n1, n2; lia).
  destruct (Z.le_gt_cases n1 0) as [Hneg|Hpos].
  - unfold py_range at 1. rewrite seqZ_nil by done. simpl.
    by exists (map (line_at (dict_get d "time" [])
                      (dict_get d "temperature_2m_max" [])
                      (dict_get d "temperature_2m_min" [])
                      (dict_get d "precipitation_probability_max" []) unit)
                 (py_range n2)).
  - unfold py_range. replace n2 with (n1 + (n2 - n1)) by lia.
    rewrite seqZ_app by lia. rewrite map_app.
    by eexists.
Qed.

Lemma format_daily_fewer_days_prefix_witness :
  exists lines1,
    format_daily_lines Sample.daily "metric" 1 = Ok lines1
    /\ lines1 `prefix_of`
         [ "Forecast:";
           "  2024-05-01  min 10.0°C / max 20.0°C  (rain prob 5%)";
           "  2024-05-02  min 11.0°C / max 21.0°C";
           "  2024-05-03  min 12.0°C / max 22.0°C" ].
Proof.
  apply (format_daily_fewer_days_prefix Sample.daily "metric" 1 3); [lia|].
  reflexivity.
Defined.

(** X14: When the day count is at least 1 and the service sent no more days
    than the clamped count it was asked for, rendering with the day count
    as given and rendering with the clamped count give the same text: the
    loop bound and the request then disagree in name only. *)
Theorem format_daily_clamped_bound_agrees
    (d : gmap string (list pyval)) (unit : string) (days : Z) :
  1 <= days ->
  py_len (dict_get d "time" []) <= forecast_days days ->
  format_daily (Some d) unit days
  = format_daily (Some d) unit (forecast_days days).
Proof.
  intros Hdays Hlen. unfold format_daily, format_daily_lines.
  replace (Z.min (forecast_days days) (py_len (dict_get d "time" [])))
    with (Z.min days (py_len (dict_get d "time" []))); [done|].
  unfold forecast_days in *. lia.
Qed.

Lemma format_daily_clamped_bound_agrees_witness :
  format_daily (Some Sample.daily) "metric" 40
  = format_daily (Some Sample.daily) "metric" (forecast_days 40).
Proof.
  apply (format_daily_clamped_bound_agrees Sample.daily "metric" 40); [lia|].
  vm_compute. discriminate.
Defined.

(** ** The weather-code table, further *)

Lemma WMO_ITEMS_descriptions_distinct :
  Forall (fun p : Z * string =>
            Forall (fun q : Z * string => p.2 = q.2 -> p.1 = q.1) WMO_ITEMS)
         WMO_ITEMS.
Proof. apply (bool_decide_unpack _). by vm_compute. Qed.

Lemma WMO_ITEMS_not_fallback :
  Forall (fun p : Z * string => String.prefix "WMO " p.2 = false) WMO_ITEMS.
Proof. apply (bool_decide_unpack _). by vm_compute. Qed.

Lemma fallback_prefix (s : string) : String.prefix "WMO " ("WMO " +:+ s) = true.
Proof. by destruct s. Qed.

(** X15: Distinct codes are described differently: the table gives no
    description twice, no description of the table begins with "WMO ",
    and the fallback spells out the code.  The text shown therefore
    identifies the code that was received. *)
Theorem wmo_desc_distinct (a b : Z) : a <> b -> wmo_desc a <> wmo_desc b.
Proof.
  intros Hab Heq. apply Hab. clear Hab. unfold wmo_desc, WMO_TEXT in Heq.
  destruct (list_to_map WMO_ITEMS !! a) as [da|] eqn:Ha;
    destruct (list_to_map WMO_ITEMS !! b) as [db|] eqn:Hb; simpl in Heq.
  - apply elem_of_list_to_map_2 in Ha, Hb. subst db.
    pose proof WMO_ITEMS_descriptions_distinct as Hall.
    rewrite Forall_forall in Hall. specialize (Hall _ Ha).
    rewrite Forall_forall in Hall. by apply (Hall _ Hb).
  - apply elem_of_list_to_map_2 in Ha.
    pose proof WMO_ITEMS_not_fallback as Hall.
    rewrite Forall_forall in Hall. specialize (Hall _ Ha). simpl in Hall.
    rewrite Heq, fallback_prefix in Hall. discriminate.
  - apply elem_of_list_to_map_2 in Hb.
    pose proof WMO_ITEMS_not_fallback as Hall.
    rewrite Forall_forall in Hall. specialize (Hall _ Hb). simpl in Hall.
    rewrite <- Heq, fallback_prefix in Hall. discriminate.
  - apply string_app_inv_head in Heq. by apply (inj pretty).
Qed.

Lemma wmo_desc_distinct_witness :
  wmo_desc 3 <> wmo_desc 14 /\ wmo_desc 14 <> wmo_desc 15.
Proof.
  split.
  - apply (wmo_desc_distinct 3 14). lia.
  - apply (wmo_desc_distinct 14 15). lia.
Defined.

(** ** Stripping and the header line *)

Lemma string_app_cons (c : ascii) (s t : string) :
  String c s +:+ t = String c (s +:+ t).
Proof. reflexivity. Qed.

Lemma lstrip_clean (p : ascii -> bool) (s : string) :
  (forall c, first_char s = Some c -> p c = false) -> lstrip p s = s.
Proof. destruct s as [|c s]; simpl; [done|]. intros H. by rewrite (H c). Qed.

Lemma first_char_lstrip (p : ascii -> bool) (s : string) (c : ascii) :
  first_char (lstrip p s) = Some c -> p c = false.
Proof.
  induction s as [|x s IH]; simpl; [done|].
  destruct (p x) eqn:Hx; [done|]. simpl. by intros [= <-].
Qed.

Lemma rstrip_clean (p : ascii -> bool) (s : string) :
  (forall c, last_char s = Some c -> p c = false) -> rstrip p s = s.
Proof.
  induction s as [|x s IH]; [done|]. intros H.
  destruct s as [|y s].
  - simpl. by rewrite (H x).
  - change (rstrip p (String x (String y s)))
      with (match rstrip p (String y s) with
            | EmptyString => if p x then EmptyString else String x EmptyString
            | kept => String x kept
            end).
    rewrite IH; [done|]. intros c Hc. by apply H.
Qed.

Lemma last_char_rstrip (p : ascii -> bool) (s : string) (c : ascii) :
  last_char (rstrip p s) = Some c -> p c = false.
Proof.
  induction s as [|x s IH]; simpl; [done|].
  destruct (rstrip p s) as [|y kept] eqn:Hkept.
  - destruct (p x) eqn:Hx; simpl; [done|]. by intros [= <-].
  - intros H. apply IH. exact H.
Qed.

Lemma first_char_rstrip (p : ascii -> bool) (s : string) (c : ascii) :
  first_char (rstrip p s) = Some c -> first_char s = Some c.
Proof.
  destruct s as [|x s]; simpl; [done|].
  destruct (rstrip p s); [destruct (p x)|]; simpl; done.
Qed.

Lemma first_char_app (s t : string) :
  s <> "" -> first_char (s +:+ t) = first_char s.
Proof. by destruct s. Qed.

Lemma last_char_app (s t : string) :
  t <> "" -> last_char (s +:+ t) = last_char t.
Proof.
  intros Ht. induction s as [|x s IH]; [done|].
  rewrite string_app_cons. simpl. rewrite IH.
  destruct (s +:+ t) eqn:Hst; [|done].
  destruct s; [|discriminate]. by destruct t.
Qed.

Lemma rstrip_app_dropped (p : ascii -> bool) (s : string) (c : ascii) :
  p c = true -> rstrip p (s +:+ String c "") = rstrip p s.
Proof.
  intros Hc. induction s as [|x s IH].
  - simpl. by rewrite Hc.
  - rewrite string_app_cons. simpl. by rewrite IH.
Qed.

Lemma py_strip_clean_ends (p : ascii -> bool) (s : string) :
  clean_ends p (py_strip p s).
Proof.
  unfold py_strip. split.
  - intros c Hc%first_char_rstrip. by apply first_char_lstrip in Hc.
  - apply last_char_rstrip.
Qed.

Lemma py_strip_clean (p : ascii -> bool) (s : string) :
  clean_ends p s -> py_strip p s = s.
Proof.
  intros [Hfirst Hlast]. unfold py_strip.
  by rewrite lstrip_clean, rstrip_clean.
Qed.

(** X16: The header, when it is made, neither begins nor ends with a comma,
    and stripping it again changes nothing.  It fails only for a location
    without a name, with [KeyError]. *)
Theorem header_has_no_outer_comma (w : dict) :
  (forall hd,
     header w = Ok hd ->
     clean_ends is_comma hd /\ py_strip is_comma hd = hd)
  /\ (forall e, header w = Raise e -> e = KeyError "name" /\ w !! "name" = None)
  /\ (is_Some (w !! "name") -> exists hd, header w = Ok hd).
Proof.
  unfold header, dict_item. destruct (w !! "name") as [name|]; simpl.
  - split; [|split].
    + intros hd [= <-].
      split; [apply py_strip_clean_ends|].
      apply py_strip_clean, py_strip_clean_ends.
    + discriminate.
    + intros _. by eexists.
  - split; [discriminate|]. split; [by intros e [= <-]|].
    by intros [? ?].
Qed.

Lemma header_has_no_outer_comma_witness :
  clean_ends is_comma "Berlin"
  /\ (exists hd, header {["name" := PStr ",Berlin,"]} = Ok hd).
Proof.
  destruct (header_has_no_outer_comma {["name" := PStr ",Berlin,"]})
    as (Hclean & _ & Hsome).
  split.
  - apply (Hclean "Berlin"). reflexivity.
  - apply Hsome. by eexists.
Defined.

Lemma clean_ends_plain (s : string) :
  clean_ends not_plain s -> clean_ends is_space s /\ clean_ends is_comma s.
Proof.
  unfold not_plain. intros [Hfirst Hlast].
  repeat split; intros c Hc;
    (apply Hfirst in Hc || apply Hlast in Hc);
    apply orb_false_elim in Hc as [Hc _];
    by apply orb_false_elim in Hc as [? ?].
Qed.

(** X17: For a name and a country that are not empty and whose first and
    last characters are ASCII and neither white space nor a comma, the
    header is [<name>, <country>]; with the country missing from the
    dict, or the empty text, the comma and the blank are trimmed and the
    header is the name alone. *)
Theorem header_of_plain_texts (w : dict) (name : string) :
  w !! "name" = Some (PStr name) ->
  name <> "" -> clean_ends not_plain name ->
  (dict_get w "country" (PStr "") = PStr "" -> header w = Ok name)
  /\ (forall country,
        dict_get w "country" (PStr "") = PStr country ->
        country <> "" -> clean_ends not_plain country ->
        header w = Ok (name +:+ ", " +:+ country)).
Proof.
  intros Hname Hne [[Hsp1 Hsp2] [Hco1 Hco2]]%clean_ends_plain.
  unfold header, dict_item. rewrite Hname. simpl. split.
  - intros ->. simpl. f_equal.
    change (", " +:+ "") with ("," +:+ String " " "").
    rewrite <- string_app_assoc.
    assert (py_strip is_space ((name +:+ ",") +:+ String " " "") = name +:+ ",")
      as ->.
    { unfold py_strip. rewrite lstrip_clean.
      - rewrite rstrip_app_dropped by done. apply rstrip_clean.
        intros c. rewrite last_char_app by done. by intros [= <-].
      - intros c. rewrite first_char_app by (by destruct name).
        rewrite first_char_app by done. apply Hsp1. }
    unfold py_strip. rewrite lstrip_clean.
    + rewrite rstrip_app_dropped by done. by apply rstrip_clean.
    + intros c. rewrite first_char_app by done. apply Hco1.
  - intros country -> Hc [[Hsp3 Hsp4] [Hco3 Hco4]]%clean_ends_plain.
    simpl. f_equal.
    assert (forall p,
              (forall c, first_char name = Some c -> p c = false) ->
              (forall c, last_char country = Some c -> p c = false) ->
              clean_ends p (name +:+ ", " +:+ country)) as Hclean.
    { intros p Hfirst Hlast. split; intros c.
      - rewrite first_char_app by done. apply Hfirst.
      - rewrite last_char_app by (by destruct country).
        change (", " +:+ country) with (String "," (String " " country)).
        destruct country as [|x rest]; [done|]. apply Hlast. }
    rewrite (py_strip_clean is_space) by auto.
    by rewrite (py_strip_clean is_comma) by auto.
Qed.

Lemma header_of_plain_texts_witness :
  header {["name" := PStr "Berlin"]} = Ok "Berlin"
  /\ header (<["name" := PStr "Frankfurt (Oder)"]>
              {["country" := PStr "Germany"]})
     = Ok "Frankfurt (Oder), Germany".
Proof.
  split.
  - destruct (header_of_plain_texts {["name" := PStr "Berlin"]} "Berlin")
      as (H & _);
      [reflexivity|discriminate|split; intros c [= <-]; reflexivity|].
    apply H. reflexivity.
  - destruct (header_of_plain_texts
                (<["name" := PStr "Frankfurt (Oder)"]>
                   {["country" := PStr "Germany"]}) "Frankfurt (Oder)")
      as (_ & H);
      [reflexivity|discriminate|split; intros c [= <-]; reflexivity|].
    apply (H "Germany");
      [reflexivity|discriminate|split; intros c [= <-]; reflexivity].
Defined.
